(** * PbStockResearcher: the acquisition pipeline, report validation and the
    batch consumer, embedded from the Go sources.

    - [filings]  : [FinancialReport.IsValid], [FinancialReportRaw.GetPreviousQuarter]
    - [scraper]  : [ParseIndexFile], [GetXbrl], [getXbrlFromZip], [getBucket],
                   [getKey], [isXbrlFileMatch]
    - [consumer] : the loop of [main] in PbStockParser.go

    Go's [int] and [int64] are 64-bit two's complement integers, modelled as
    [Z] with the wrap-around written out.  Go strings are byte strings,
    modelled as [string].  The collaborators that the sources only call
    (blob store, persisters, HTTP client, zip reader, clock, filing parser)
    are interfaces over an abstract world; every call is also recorded in a
    trace, so that "no fetch happens" is a statement about the trace. *)

From Stdlib Require Import ZArith List String Ascii Bool Lia.
Import ListNotations.

Local Open Scope string_scope.
Local Open Scope Z_scope.

(* ===================================================================== *)
(** ** 64-bit integers *)

Module Int64.

Definition min_int : Z := - 2 ^ 63.
Definition max_int : Z := 2 ^ 63 - 1.

Definition in_range (z : Z) : Prop := min_int <= z <= max_int.

(** Two's complement wrap-around of a mathematical integer. *)
Definition wrap (z : Z) : Z := (z + 2 ^ 63) mod 2 ^ 64 - 2 ^ 63.

Definition add (a b : Z) : Z := wrap (a + b).
Definition sub (a b : Z) : Z := wrap (a - b).

End Int64.

(* ===================================================================== *)
(** ** The functions of Go's [strings] package that the sources call *)

Module strings.

(** [strings.HasPrefix] *)
Fixpoint HasPrefix (s prefix : string) : bool :=
  match prefix, s with
  | EmptyString, _ => true
  | String _ _, EmptyString => false
  | String a p, String b t => Ascii.eqb a b && HasPrefix t p
  end.

(** [strings.Contains]: [substr] occurs at some offset of [s]. *)
Fixpoint Contains (s substr : string) : bool :=
  HasPrefix s substr ||
  match s with
  | EmptyString => false
  | String _ t => Contains t substr
  end.

(** [strings.Split(s, sep)] for a one-byte separator, which is how the
    sources call it (["|"] and ["/"]).  The result is never empty. *)
Fixpoint Split (s : string) (sep : ascii) : list string :=
  match s with
  | EmptyString => [EmptyString]
  | String c t =>
      if Ascii.eqb c sep then EmptyString :: Split t sep
      else match Split t sep with
           | h :: r => String c h :: r
           | [] => [String c EmptyString]
           end
  end.

(** [strings.Join] *)
Fixpoint Join (elems : list string) (sep : string) : string :=
  match elems with
  | [] => EmptyString
  | [e] => e
  | e :: rest => e ++ sep ++ Join rest sep
  end.

(** [strings.Replace(s, old, new, -1)] for a one-byte [old]. *)
Fixpoint ReplaceAll (s : string) (old : ascii) (new : string) : string :=
  match s with
  | EmptyString => EmptyString
  | String c t =>
      if Ascii.eqb c old then new ++ ReplaceAll t old new
      else String c (ReplaceAll t old new)
  end.

(** Membership of a byte in a cutset. *)
Fixpoint inCutset (c : ascii) (cutset : string) : bool :=
  match cutset with
  | EmptyString => false
  | String d rest => Ascii.eqb c d || inCutset c rest
  end.

(** [strings.TrimLeft]: drops leading bytes while they are in [cutset]. *)
Fixpoint TrimLeft (s cutset : string) : string :=
  match s with
  | EmptyString => EmptyString
  | String c t => if inCutset c cutset then TrimLeft t cutset else s
  end.

Fixpoint revOnto (s acc : string) : string :=
  match s with
  | EmptyString => acc
  | String c t => revOnto t (String c acc)
  end.

Definition reverse (s : string) : string := revOnto s EmptyString.

(** [strings.TrimRight]: drops trailing bytes while they are in [cutset]. *)
Definition TrimRight (s cutset : string) : string :=
  reverse (TrimLeft (reverse s) cutset).

(** [strings.Trim(s, cutset)]: the second argument is a SET of bytes, every
    leading and trailing byte of [s] that belongs to it is removed. *)
Definition Trim (s cutset : string) : string :=
  TrimRight (TrimLeft s cutset) cutset.

(** [strings.TrimSuffix]: removes [suffix] once when [s] ends with it. *)
Fixpoint TrimSuffix (s suffix : string) : string :=
  if String.eqb s suffix then EmptyString
  else match s with
       | EmptyString => EmptyString
       | String c t => String c (TrimSuffix t suffix)
       end.

Definition HasSuffix (s suffix : string) : bool :=
  HasPrefix (reverse s) (reverse suffix).

End strings.

(* ===================================================================== *)
(** ** [strconv.Atoi] and [strconv.Itoa] on a 64-bit platform *)

Module strconv.

Inductive NumError := ErrSyntax | ErrRange.

Definition digitVal (c : ascii) : option Z :=
  let n := Z.of_N (N_of_ascii c) in
  if (48 <=? n) && (n <=? 57) then Some (n - 48) else None.

Definition maxUint64 : Z := 2 ^ 64 - 1.

(** What [strconv.ParseUint(s, 10, 64)] makes of a string: a byte that
    is not a digit is a syntax error, a value above [maxUint64] a range
    error.  The bytes are read from the left and the first error ends
    the scan, so an overflow hides a bad byte after it. *)
Inductive scan := ScanSyntax | ScanRange | ScanValue (n : Z).

Fixpoint parseDigits (s : string) (acc : Z) : scan :=
  match s with
  | EmptyString => ScanValue acc
  | String c t =>
      match digitVal c with
      | None => ScanSyntax
      | Some d =>
          if maxUint64 <? acc * 10 + d then ScanRange
          else parseDigits t (acc * 10 + d)
      end
  end.

(** [strconv.Atoi]: an optional sign, then one or more decimal digits.
    On a syntax error the value is 0; out of range it is the nearest
    bound, with [ErrRange]. *)
Definition Atoi (s : string) : Z * option NumError :=
  match s with
  | EmptyString => (0, Some ErrSyntax)
  | String c t =>
      let neg := Ascii.eqb c "-" in
      let body := if neg || Ascii.eqb c "+" then t else s in
      match body with
      | EmptyString => (0, Some ErrSyntax)
      | _ =>
          match parseDigits body 0 with
          | ScanSyntax => (0, Some ErrSyntax)
          | ScanRange =>
              (if neg then Int64.min_int else Int64.max_int, Some ErrRange)
          | ScanValue n =>
              let v := if neg then - n else n in
              if Int64.max_int <? v then (Int64.max_int, Some ErrRange)
              else if v <? Int64.min_int then (Int64.min_int, Some ErrRange)
              else (v, None)
          end
      end
  end.

Definition digitChar (d : Z) : ascii := ascii_of_N (Z.to_N (48 + d)).

(** Decimal digits of a non-negative number, most significant first;
    [fuel] bounds the number of digits. *)
Fixpoint digits (fuel : nat) (n : Z) (acc : string) : string :=
  match fuel with
  | O => acc
  | S k =>
      let acc' := String (digitChar (n mod 10)) acc in
      if n <? 10 then acc' else digits k (n / 10) acc'
  end.

(** [strconv.Itoa]; twenty digits are enough for any 64-bit value. *)
Definition Itoa (i : Z) : string :=
  if i <? 0 then String "-" (digits 20 (- i) EmptyString)
  else digits 20 i EmptyString.

End strconv.

(* ===================================================================== *)
(** ** UTF-8 decoding, as Go's [unicode/utf8] does it *)

Module utf8.

(** A character (Go's [rune]) is its code point. *)
Definition RuneError : N := 65533.

Definition byte (c : ascii) : N := N_of_ascii c.

(** A continuation byte, [0x80..0xBF]. *)
Definition isCont (b : N) : bool := N.leb 128 b && N.leb b 191.

Definition within (lo hi b : N) : bool := N.leb lo b && N.leb b hi.

(** The range [utf8.DecodeRuneInString] accepts for the second byte,
    given the first: it excludes over-long forms, surrogates and code
    points above [U+10FFFF]. *)
Definition acceptsSecond (b0 b1 : N) : bool :=
  if N.eqb b0 224 then within 160 191 b1
  else if N.eqb b0 237 then within 128 159 b1
  else if N.eqb b0 240 then within 144 191 b1
  else if N.eqb b0 244 then within 128 143 b1
  else isCont b1.

(** The characters of a string, read as [regexp] reads them: a byte
    below [0x80] is itself; a well-formed sequence of two to four bytes
    is one character; any other byte is the character [RuneError], one
    byte wide. *)
Fixpoint decode (s : string) : list N :=
  match s with
  | EmptyString => []
  | String c0 t0 =>
      let b0 := byte c0 in
      let invalid := RuneError :: decode t0 in
      if N.ltb b0 128 then b0 :: decode t0
      else
        match t0 with
        | EmptyString => invalid
        | String c1 t1 =>
            let b1 := byte c1 in
            if within 194 223 b0 then
              if isCont b1 then
                ((b0 mod 32) * 64 + b1 mod 64)%N :: decode t1
              else invalid
            else if within 224 239 b0 then
              match t1 with
              | EmptyString => invalid
              | String c2 t2 =>
                  let b2 := byte c2 in
                  if acceptsSecond b0 b1 && isCont b2 then
                    ((b0 mod 16) * 4096 + (b1 mod 64) * 64 + b2 mod 64)%N
                      :: decode t2
                  else invalid
              end
            else if within 240 244 b0 then
              match t1 with
              | EmptyString => invalid
              | String c2 t2 =>
                  match t2 with
                  | EmptyString => invalid
                  | String c3 t3 =>
                      let b2 := byte c2 in
                      let b3 := byte c3 in
                      if acceptsSecond b0 b1 && isCont b2 && isCont b3 then
                        ((b0 mod 8) * 262144 + (b1 mod 64) * 4096
                         + (b2 mod 64) * 64 + b3 mod 64)%N :: decode t3
                      else invalid
                  end
              end
            else invalid
        end
  end.

(** The characters of a string of bytes below [0x80]. *)
Fixpoint ofAscii (s : string) : list N :=
  match s with
  | EmptyString => []
  | String c t => byte c :: ofAscii t
  end.

End utf8.

(* ===================================================================== *)
(** ** Regular expressions, as Go's [regexp.MatchString] uses them *)

Module regexp.

(** The syntax the pattern of [isXbrlFileMatch] needs.  [AnyNotNL] is the
    dot of Go's default flags: any character but a line feed.  The
    matcher steps through the characters of the input, not its bytes. *)
Inductive regex :=
| Void
| Eps
| Chr (c : ascii)
| Range (lo hi : ascii)
| AnyNotNL
| Alt (r1 r2 : regex)
| Cat (r1 r2 : regex)
| Star (r : regex).

(** [r+] *)
Definition Plus (r : regex) : regex := Cat r (Star r).

Definition code (c : ascii) : N := N_of_ascii c.

Definition lineFeed : N := 10.

Fixpoint nullable (r : regex) : bool :=
  match r with
  | Void => false
  | Eps => true
  | Chr _ => false
  | Range _ _ => false
  | AnyNotNL => false
  | Alt r1 r2 => nullable r1 || nullable r2
  | Cat r1 r2 => nullable r1 && nullable r2
  | Star _ => true
  end.

(** Brzozowski derivative of [r] by the character [c]. *)
Fixpoint deriv (c : N) (r : regex) : regex :=
  match r with
  | Void => Void
  | Eps => Void
  | Chr d => if N.eqb c (code d) then Eps else Void
  | Range lo hi =>
      if (N.leb (code lo) c && N.leb c (code hi))%bool then Eps else Void
  | AnyNotNL => if N.eqb c lineFeed then Void else Eps
  | Alt r1 r2 => Alt (deriv c r1) (deriv c r2)
  | Cat r1 r2 =>
      if nullable r1 then Alt (Cat (deriv c r1) r2) (deriv c r2)
      else Cat (deriv c r1) r2
  | Star r1 => Cat (deriv c r1) (Star r1)
  end.

(** The whole of [l] is a word of [r]. *)
Fixpoint matchAll (r : regex) (l : list N) : bool :=
  match l with
  | [] => nullable r
  | c :: t => matchAll (deriv c r) t
  end.

(** Some prefix of [l] is a word of [r]. *)
Fixpoint matchPrefix (r : regex) (l : list N) : bool :=
  nullable r ||
  match l with
  | [] => false
  | c :: t => matchPrefix (deriv c r) t
  end.

(** [l] contains a word of [r], starting at some character. *)
Fixpoint search (r : regex) (l : list N) : bool :=
  matchPrefix r l ||
  match l with
  | [] => false
  | _ :: t => search r t
  end.

(** The whole of [s] is a word of [r]. *)
Definition fullMatch (r : regex) (s : string) : bool :=
  matchAll r (utf8.decode s).

(** [regexp.MatchString] is not anchored: it reports whether [s]
    CONTAINS a word of the pattern. *)
Definition MatchString (r : regex) (s : string) : bool :=
  search r (utf8.decode s).

Fixpoint Lit (s : string) : regex :=
  match s with
  | EmptyString => Eps
  | String c t => Cat (Chr c) (Lit t)
  end.

(** [below r1 r2]: a syntactic sufficient condition for "every word of
    [r1] is a word of [r2]". *)
Inductive below : regex -> regex -> Prop :=
| below_refl r : below r r
| below_void r : below Void r
| below_dot c : N.eqb (code c) lineFeed = false -> below (Chr c) AnyNotNL
| below_alt r1 r2 s1 s2 : below r1 s1 -> below r2 s2 -> below (Alt r1 r2) (Alt s1 s2)
| below_alt_l r s1 s2 : below r s1 -> below r (Alt s1 s2)
| below_alt_r r s1 s2 : below r s2 -> below r (Alt s1 s2)
| below_cat r1 r2 s1 s2 : below r1 s1 -> below r2 s2 -> below (Cat r1 r2) (Cat s1 s2)
| below_star r s : below r s -> below (Star r) (Star s).

(** Iteration of a language. *)
Inductive star (L : list N -> Prop) : list N -> Prop :=
| star_nil : star L []
| star_app l1 l2 : L l1 -> star L l2 -> star L (l1 ++ l2)%list.

(** The words of a regular expression, as sequences of characters. *)
Fixpoint lang (r : regex) (l : list N) : Prop :=
  match r with
  | Void => False
  | Eps => l = []
  | Chr c => l = [code c]
  | Range lo hi => exists c, l = [c] /\ (code lo <= c <= code hi)%N
  | AnyNotNL => exists c, l = [c] /\ c <> lineFeed
  | Alt r1 r2 => lang r1 l \/ lang r2 l
  | Cat r1 r2 =>
      exists l1 l2, l = (l1 ++ l2)%list /\ lang r1 l1 /\ lang r2 l2
  | Star r1 => star (lang r1) l
  end.

(** Every byte of [s] satisfies [p]. *)
Fixpoint allBytes (p : ascii -> bool) (s : string) : bool :=
  match s with
  | EmptyString => true
  | String c t => p c && allBytes p t
  end.

Definition isDigit (c : ascii) : bool :=
  N.leb (code "0") (code c) && N.leb (code c) (code "9").

(** The characters [0-9], and the characters [a-z0-9]. *)
Definition isDigitRune (c : N) : bool :=
  N.leb (code "0") c && N.leb c (code "9").

Definition isLowerRune (c : N) : bool :=
  N.leb (code "a") c && N.leb c (code "z").

Definition isLowerOrDigitRune (c : N) : bool :=
  isLowerRune c || isDigitRune c.

End regexp.

(* ===================================================================== *)
(** ** Package [filings] *)

Module filings.

(** Modelled from the spec: the declaration of [filings.Company] is not
    among the sources; the fields are those of the data model, as
    [ParseIndexFile] fills them. *)
Record Company := mkCompany {
  Company_CIK : Z;
  Company_Name : string
}.

(** Modelled from the spec: the declaration of [filings.ReportFile] is not
    among the sources; the fields are those of the data model, as
    [ParseIndexFile], [getXbrlFromZip] and [main] use them. *)
Record ReportFile := mkReportFile {
  ReportFile_CIK : Z;
  ReportFile_Year : Z;
  ReportFile_Quarter : Z;
  ReportFile_Filepath : string;
  ReportFile_FormType : string;
  ReportFile_Parsed : bool
}.

Record FinancialReport := mkFinancialReport {
  CIK : Z; Year : Z; Quarter : Z;
  Revenue : Z; OperatingExpense : Z; NetIncome : Z;
  CurrentAssets : Z; TotalAssets : Z;
  CurrentLiabilities : Z; TotalLiabilities : Z;
  OperatingCash : Z; CapitalExpenditures : Z
}.

(** One [if fr.X == 0 { missingFields += "X," }] of [IsValid]. *)
Definition missing (value : Z) (name : string) (missingFields : string)
  : string :=
  if value =? 0 then missingFields ++ name else missingFields.

(** [FinancialReport.IsValid]: [None] is Go's [nil] error, [Some m] is
    [errors.New(m)].  The fields are tested in the order of the source. *)
Definition IsValid (fr : FinancialReport) : option string :=
  let missingFields := "" in
  let missingFields := missing (Revenue fr) "Revenue," missingFields in
  let missingFields :=
    missing (OperatingExpense fr) "OperatingExpense," missingFields in
  let missingFields := missing (NetIncome fr) "NetIncome," missingFields in
  let missingFields :=
    missing (TotalAssets fr) "TotalAssets," missingFields in
  let missingFields :=
    missing (TotalLiabilities fr) "TotalLiabilities," missingFields in
  let missingFields :=
    missing (CurrentAssets fr) "CurrentAssets," missingFields in
  let missingFields :=
    missing (CurrentLiabilities fr) "CurrentLiabilities," missingFields in
  let missingFields :=
    missing (OperatingCash fr) "OperatingCash," missingFields in
  let missingFields :=
    missing (CapitalExpenditures fr) "CapitalExpenditures," missingFields in
  if (0 <? String.length missingFields)%nat then Some missingFields
  else None.

(** All nine canonical metrics are set (non-zero). *)
Definition allNineSet (fr : FinancialReport) : Prop :=
  Revenue fr <> 0 /\ OperatingExpense fr <> 0 /\ NetIncome fr <> 0 /\
  CurrentAssets fr <> 0 /\ TotalAssets fr <> 0 /\
  CurrentLiabilities fr <> 0 /\ TotalLiabilities fr <> 0 /\
  OperatingCash fr <> 0 /\ CapitalExpenditures fr <> 0.

(** [FinancialReportRaw]; the raw fields are an association list from tag
    name to value. *)
Record FinancialReportRaw := mkFinancialReportRaw {
  Raw_CIK : Z;
  Raw_Year : Z;
  Raw_Quarter : Z;
  RawFields : list (string * Z)
}.

(** [FinancialReportRaw.GetPreviousQuarter]; the subtractions are Go's
    [int64] subtractions. *)
Definition GetPreviousQuarter (frr : FinancialReportRaw) : Z * Z :=
  if Raw_Quarter frr =? 1 then (Int64.sub (Raw_Year frr) 1, 4)
  else (Raw_Year frr, Int64.sub (Raw_Quarter frr) 1).

(** The raw report of the quarter before: same company, the period that
    [GetPreviousQuarter] answers. *)
Definition previousPeriod (frr : FinancialReportRaw) : FinancialReportRaw :=
  mkFinancialReportRaw (Raw_CIK frr) (fst (GetPreviousQuarter frr))
    (snd (GetPreviousQuarter frr)) (RawFields frr).

(** [BasicRawFieldNameList.GetInt64RawFieldNames] *)
Definition GetInt64RawFieldNames : list string :=
  ["Revenues";
   "SalesRevenueNet";
   "CostsAndExpenses";
   "OperatingExpenses";
   "NetIncomeLoss";
   "Assets";
   "LiabilitiesCurrent";
   "LongTermDebtNoncurrent";
   "DeferredTaxLiabilitiesNoncurrent";
   "AssetsCurrent";
   "NetCashProvidedByUsedInOperatingActivities";
   "PaymentsToAcquirePropertyPlantAndEquipment"].

(** [BasicRawFieldNameList.GetVariablePeriodFieldNames] *)
Definition GetVariablePeriodFieldNames : list string :=
  ["NetCashProvidedByUsedInOperatingActivities";
   "PaymentsToAcquirePropertyPlantAndEquipment"].

(** The keys of the map that [GetRawToScreenableMapping] builds are the
    addresses [&fr.Revenue], ..., [&fr.CapitalExpenditures]: one key per
    metric field of the report. *)
Inductive MetricField :=
| FieldRevenue | FieldOperatingExpense | FieldNetIncome
| FieldCurrentAssets | FieldTotalAssets
| FieldCurrentLiabilities | FieldTotalLiabilities
| FieldOperatingCash | FieldCapitalExpenditures.

(** [BasicRawToScreenableMapping.GetRawToScreenableMapping]: the entries
    in the order of the assignments; each value is a list of groups of
    raw tag names. *)
Definition GetRawToScreenableMapping
  : list (MetricField * list (list string)) :=
  [(FieldRevenue, [["Revenues"]; ["SalesRevenueNet"]]);
   (FieldOperatingExpense,
    [["CostsAndExpenses"]; ["OperatingExpenses"];
     ["CostOfGoodsAndServicesSold"]]);
   (FieldNetIncome, [["NetIncomeLoss"]]);
   (FieldCurrentAssets, [["AssetsCurrent"]]);
   (FieldTotalAssets, [["Assets"]]);
   (FieldCurrentLiabilities, [["LiabilitiesCurrent"]]);
   (FieldTotalLiabilities,
    [["LiabilitiesCurrent"; "DeferredTaxLiabilitiesNoncurrent";
      "LongTermDebtNoncurrent"];
     ["Liabilities"]]);
   (FieldOperatingCash, [["NetCashProvidedByUsedInOperatingActivities"]]);
   (FieldCapitalExpenditures,
    [["PaymentsToAcquirePropertyPlantAndEquipment"]])].

(** Every raw tag name that some group of the mapping mentions. *)
Definition mappedTags : list string :=
  List.concat (List.concat (map snd GetRawToScreenableMapping)).

Definition isListed (names : list string) (tag : string) : bool :=
  existsb (String.eqb tag) names.

End filings.

(* ===================================================================== *)
(** ** The world outside the sources: collaborators and the call trace *)

Module io.

Import filings.

(** An [*http.Response]: status line, status code and body. *)
Record Response := mkResponse {
  Status : string;
  StatusCode : Z;
  Body : string
}.

(** An entry of an opened archive ([*zip.File]): its name, and what
    [Open()] gives, the content or [None] for an error. *)
Record ZipFile := mkZipFile {
  ZipFile_Name : string;
  ZipFile_Open : option string
}.

(** One result of [bufio.Reader.ReadLine]: [line] ([None] is [nil]),
    [isPrefix], and whether [err] is non-nil. *)
Record ReadLineResult := mkRead {
  line : option string;
  isPrefix : bool;
  readErr : bool
}.

(** Every call that leaves the sources, in the order it is made. *)
Inductive event :=
| LogPrintln (args : list string)
| LogError (args : list string)
| CallInsertUpdateCompany (c : Company)
| CallInsertUpdateReportFile (rf : ReportFile)
| CallGetNextUnparsedFiles (limit : Z)
| CallGetFilePath (bucket key : string)
| CallStoreFile (bucket name content : string)
| CallHttpGet (url : string)
| CallTimeNow
| CallZipOpenReader (path : string)
| CallZipFileOpen (name : string)
| CallParse (path : string) (raw : FinancialReportRaw).

(** A call either returns, or the goroutine panics (an index out of
    range, a nil dereference) and unwinds.  Both carry the world reached
    and the calls made so far. *)
Inductive outcome (W A : Type) :=
| Returned (a : A) (w : W) (tr : list event)
| Panicked (msg : string) (w : W) (tr : list event).

Arguments Returned {W A} a w tr.
Arguments Panicked {W A} msg w tr.

Definition M (W A : Type) : Type := W -> outcome W A.

Definition ret {W A} (a : A) : M W A := fun w => Returned a w [].

Definition bind {W A B} (m : M W A) (k : A -> M W B) : M W B :=
  fun w =>
    match m w with
    | Returned a w1 t1 =>
        match k a w1 with
        | Returned b w2 t2 => Returned b w2 (t1 ++ t2)%list
        | Panicked msg w2 t2 => Panicked msg w2 (t1 ++ t2)%list
        end
    | Panicked msg w1 t1 => Panicked msg w1 t1
    end.

Definition panic {W A} (msg : string) : M W A :=
  fun w => Panicked msg w [].

Definition emit {W} (e : event) : M W unit := fun w => Returned tt w [e].

(** A collaborator call: recorded, then answered by the collaborator. *)
Definition call {W A} (e : event) (f : W -> A * W) : M W A :=
  fun w => let (a, w') := f w in Returned a w' [e].

Definition trace {W A} (o : outcome W A) : list event :=
  match o with
  | Returned _ _ tr => tr
  | Panicked _ _ tr => tr
  end.

Definition world {W A} (o : outcome W A) : W :=
  match o with
  | Returned _ w _ => w
  | Panicked _ w _ => w
  end.

Definition returns {W A} (o : outcome W A) : bool :=
  match o with
  | Returned _ _ _ => true
  | Panicked _ _ _ => false
  end.

(** [s[i]] on a slice: a run-time panic when [i] is out of range. *)
Definition index {W} (elements : list string) (i : nat) : M W string :=
  match nth_error elements i with
  | Some x => ret x
  | None => panic "index out of range"
  end.

(** [s[i] = x] on a slice whose index [i] is known to be in range. *)
Fixpoint setIndex (elements : list string) (i : nat) (x : string)
  : list string :=
  match elements, i with
  | [], _ => []
  | _ :: rest, O => x :: rest
  | e :: rest, S j => e :: setIndex rest j x
  end.

(** Modelled from the spec: interface [persist.PersistCompany], of which
    the sources call [InsertUpdateCompany]. *)
Class PersistCompany (W : Type) := {
  InsertUpdateCompany : Company -> W -> unit * W
}.

(** Modelled from the spec: interface [persist.PersistReportFiles], of
    which the sources call [InsertUpdateReportFile] and
    [GetNextUnparsedFiles]. *)
Class PersistReportFiles (W : Type) := {
  InsertUpdateReportFile : ReportFile -> W -> unit * W;
  GetNextUnparsedFiles : Z -> W -> list ReportFile * W
}.

(** Modelled from the spec: [tmpStore.TempStore], the blob store;
    [GetFilePath(bucket, key)] and [StoreFile(bucket, name, bytes)] both
    answer a path, the empty string when there is none. *)
Class TempStore (W : Type) := {
  GetFilePath : string -> string -> W -> string * W;
  StoreFile : string -> string -> string -> W -> string * W
}.

(** The standard library calls that reach outside the process:
    [http.Get] ([None] is a non-nil error), [time.Now().Unix()],
    [zip.OpenReader] ([None] is a non-nil error), and the lines that a
    [bufio.Reader] over a body hands out. *)
Class Outside (W : Type) := {
  http_Get : string -> W -> option Response * W;
  time_Now_Unix : W -> Z * W;
  zip_OpenReader : string -> W -> option (list ZipFile) * W;
  bufio_ReadLines : string -> list ReadLineResult
}.

(** Modelled from the spec: package [parser], the external filing parser
    and the normalization behind it; [NewFinancialReportParser(path, raw,
    ...)], [Parse()] and [GetFinancialReport()] taken together. *)
Class FilingParser (W : Type) := {
  ParseFinancialReport :
    string -> FinancialReportRaw -> W -> FinancialReport * W
}.

End io.

Declare Scope go_scope.
Delimit Scope go_scope with go.
Notation "x <- m ;; k" := (io.bind m (fun x => k))
  (at level 61, m at next level, right associativity) : go_scope.
Notation "m ;; k" := (io.bind m (fun _ => k))
  (at level 61, right associativity) : go_scope.

(* ===================================================================== *)
(** ** Package [scraper] *)

Module scraper.

Import filings io.
Local Open Scope go_scope.

Definition EDGAR_FULL_INDEX_URL_PREFIX : string :=
  "http://www.sec.gov/Archives/edgar/full-index/".
Definition INDEX_FILE_NAME : string := "/xbrl.idx".

Definition SEC_EDGAR_BASE_URL : string := "http://www.sec.gov/Archives/".
Definition XBRL_ZIP_SUFFIX : string := "-xbrl.zip".

(** The scalar fields of [EdgarFullIndexScraper]; its [ts], [persister]
    and [reportPersister] are the collaborator instances. *)
Record EdgarFullIndexScraper := mkScraper {
  year : Z;
  quarter : Z
}.

Definition getBucket (cik : string) : string := "CIK_" ++ cik.

Definition getKey (formType : string) (year quarter : Z) : string :=
  let key :=
    "Y" ++ strconv.Itoa year ++ "Q" ++ strconv.Itoa quarter
        ++ "FT" ++ formType in
  strings.ReplaceAll key "/" "_".

(** The pattern of [isXbrlFileMatch], ["([a-z]|[0-9])+-[0-9]+.xml"]:
    the dot before [xml] is not escaped. *)
Definition xbrlPattern : regexp.regex :=
  regexp.Cat (regexp.Plus (regexp.Alt (regexp.Range "a" "z")
                                      (regexp.Range "0" "9")))
 (regexp.Cat (regexp.Chr "-")
 (regexp.Cat (regexp.Plus (regexp.Range "0" "9"))
 (regexp.Cat regexp.AnyNotNL
             (regexp.Lit "xml")))).

Definition isXbrlFileMatch (fileName : string) : bool :=
  regexp.MatchString xbrlPattern fileName.

(** Lines 138-143 of [GetXbrl]: the accession base name and the package
    URL, or [None] where [parts[3]] is out of range. *)
Definition packageUrl (edgarFilename : string) : option (string * string) :=
  let parts := strings.Split edgarFilename "/" in
  match nth_error parts 3 with
  | None => None
  | Some p3 =>
      let baseName := strings.Trim p3 ".txt" in
      let preBase := strings.ReplaceAll baseName "-" "" in
      let parts :=
        setIndex parts 3 (preBase ++ "/" ++ baseName ++ XBRL_ZIP_SUFFIX) in
      let fullUrl := SEC_EDGAR_BASE_URL ++ strings.Join parts "/" in
      Some (baseName, fullUrl)
  end.

(** [reportFile.Filepath = path] *)
Definition withFilepath (reportFile : ReportFile) (path : string)
  : ReportFile :=
  mkReportFile (ReportFile_CIK reportFile) (ReportFile_Year reportFile)
    (ReportFile_Quarter reportFile) path (ReportFile_FormType reportFile)
    (ReportFile_Parsed reportFile).

(** Calls that belong to the download path: the package fetch, writes
    to the blob store, archive reads and the report-file record. *)
Definition isDownloadCall (e : event) : bool :=
  match e with
  | CallHttpGet _ | CallStoreFile _ _ _ | CallZipOpenReader _
  | CallZipFileOpen _ | CallInsertUpdateReportFile _ | CallTimeNow => true
  | _ => false
  end.

Definition isCompanyCall (e : event) : bool :=
  match e with CallInsertUpdateCompany _ => true | _ => false end.

(** What the company step of a record leaves in the trace. *)
Definition companyEvents (cik companyName : string) : list event :=
  match strconv.Atoi cik with
  | (cikInt, None) => [CallInsertUpdateCompany (mkCompany cikInt companyName)]
  | (_, Some _) => [LogError ["Failed to parse CIK to int: "; cik]]
  end.

Definition recordLog (cik companyName formType dateFiled filename : string)
  : event :=
  LogPrintln ["CIK: "; cik; " Company Name: "; companyName;
              " Form type: "; formType; "  Date Filed: "; dateFiled;
              "  FileName: "; filename].

(** The stub that is handed to [GetXbrl]. *)
Definition stubFor (efis : EdgarFullIndexScraper) (cik formType : string)
  : ReportFile :=
  mkReportFile (fst (strconv.Atoi cik)) (year efis) (quarter efis) ""
    formType false.

(** [NewEdgarFullIndexScraper]; the three collaborators it stores are
    the instances in scope. *)
Definition NewEdgarFullIndexScraper (year quarter : Z)
  : EdgarFullIndexScraper := mkScraper year quarter.

(** The URL that [ScrapeEdgarQuarterlyIndex] builds. *)
Definition indexUrlOf (efis : EdgarFullIndexScraper) : string :=
  EDGAR_FULL_INDEX_URL_PREFIX ++ strconv.Itoa (year efis)
    ++ "/QTR" ++ strconv.Itoa (quarter efis) ++ INDEX_FILE_NAME.

Definition startLog (efis : EdgarFullIndexScraper) : event :=
  LogPrintln ["Starting to scrape the full index for year <";
              strconv.Itoa (year efis); "> and quarter:";
              strconv.Itoa (quarter efis)].

Definition tooLongLog : event :=
  LogError ["This index file has a line that's too long!"].

Definition isReportCall (e : event) : bool :=
  match e with CallInsertUpdateReportFile _ => true | _ => false end.

Definition isStoreCall (e : event) : bool :=
  match e with CallStoreFile _ _ _ => true | _ => false end.

(** A read of a whole line without error. *)
Definition fullLine (l : string) : ReadLineResult :=
  mkRead (Some l) false false.

Section WithCollaborators.

Context {W : Type}.
Context {persister : PersistCompany W}.
Context {reportPersister : PersistReportFiles W}.
Context {ts : TempStore W}.
Context {outside : Outside W}.

(** The loop over [zipReader.File]: answers [foundOne].  The loop
    breaks at the first matching entry.  [defer xbrlFile.Close()] is
    executed before [xbrlErr] is looked at: when [Open] fails,
    [xbrlFile] is a nil interface and the method lookup panics. *)
Fixpoint scanZip (files : list ZipFile) (bucket fileKey : string)
  (reportFile : ReportFile) : M W bool :=
  match files with
  | [] => ret false
  | zippedFile :: rest =>
      let zippedFileName := ZipFile_Name zippedFile in
      if isXbrlFileMatch zippedFileName then
        emit (LogPrintln ["Found zipped file: "; zippedFileName]) ;;
        emit (CallZipFileOpen zippedFileName) ;;
        match ZipFile_Open zippedFile with
        | None => panic "invalid memory address or nil pointer dereference"
        | Some xbrlFile =>
            reportPath <-
              call (CallStoreFile bucket fileKey xbrlFile)
                   (StoreFile bucket fileKey xbrlFile) ;;
            let reportFile := withFilepath reportFile reportPath in
            call (CallInsertUpdateReportFile reportFile)
                 (InsertUpdateReportFile reportFile) ;;
            ret true
        end
      else scanZip rest bucket fileKey reportFile
  end.

Definition getXbrlFromZip (zipFileName bucket fileKey : string)
  (reportFile : ReportFile) : M W unit :=
  zipReader <-
    call (CallZipOpenReader zipFileName) (zip_OpenReader zipFileName) ;;
  match zipReader with
  | None => emit (LogError ["Failed to open zip: "; zipFileName])
  | Some files =>
      foundOne <- scanZip files bucket fileKey reportFile ;;
      if negb foundOne then
        emit (LogError
                ["Could not find a match for an xbrl in "; zipFileName])
      else ret tt
  end.

Definition GetXbrl (edgarFilename bucket fileKey : string)
  (reportFile : ReportFile) : M W unit :=
  if negb (strings.Contains edgarFilename ".txt") then
    emit (LogError ["Unexpected file type: "; edgarFilename])
  else
    match packageUrl edgarFilename with
    | None => panic "index out of range"
    | Some (baseName, fullUrl) =>
        emit (LogPrintln ["Getting xbrl zip from "; fullUrl]) ;;
        getResp <- call (CallHttpGet fullUrl) (http_Get fullUrl) ;;
        match getResp with
        | None => emit (LogError ["Failed get to: "; fullUrl])
        | Some resp =>
            now <- call CallTimeNow time_Now_Unix ;;
            let outputFileName :=
              strconv.Itoa now ++ baseName ++ XBRL_ZIP_SUFFIX in
            zipFilePath <-
              call (CallStoreFile bucket outputFileName (Body resp))
                   (StoreFile bucket outputFileName (Body resp)) ;;
            if negb (String.eqb zipFilePath "") then
              getXbrlFromZip zipFilePath bucket fileKey reportFile
            else ret tt
        end
    end.

(** The world after the company step of a record. *)
Definition afterCompany (cik companyName : string) (w : W) : W :=
  match strconv.Atoi cik with
  | (cikInt, None) =>
      snd (InsertUpdateCompany (mkCompany cikInt companyName) w)
  | (_, Some _) => w
  end.

(** The body of [if listBegun { ... }] in [ParseIndexFile]: one index
    line in LIST state. *)
Definition parseRecord (efis : EdgarFullIndexScraper) (lineStr : string)
  : M W unit :=
  let elements := strings.Split lineStr "|" in
  cik <- index elements 0 ;;
  companyName <- index elements 1 ;;
  formType <- index elements 2 ;;
  dateFiled <- index elements 3 ;;
  filename <- index elements 4 ;;
  let (cikInt, cikErr) := strconv.Atoi cik in
  match cikErr with
  | None =>
      let company := mkCompany cikInt companyName in
      call (CallInsertUpdateCompany company)
           (InsertUpdateCompany company)
  | Some _ => emit (LogError ["Failed to parse CIK to int: "; cik])
  end ;;
  emit (LogPrintln ["CIK: "; cik; " Company Name: "; companyName;
                    " Form type: "; formType; "  Date Filed: "; dateFiled;
                    "  FileName: "; filename]) ;;
  let bucket := getBucket cik in
  let fileKey := getKey formType (year efis) (quarter efis) in
  filePath <- call (CallGetFilePath bucket fileKey)
                   (GetFilePath bucket fileKey) ;;
  if String.eqb filePath "" then
    let reportFile :=
      mkReportFile cikInt (year efis) (quarter efis) "" formType false in
    GetXbrl filename bucket fileKey reportFile
  else
    emit (LogPrintln ["SKIP <"; filename;
                      "> because it already exists in: "; filePath]).

(** The loop of [ParseIndexFile] over the results of [ReadLine];
    [listBegun] is its state.  The loop condition [readErr == nil] is
    tested after each iteration, also after a [continue]; a reader
    that has nothing more to give answers [(nil, false, EOF)]. *)
Fixpoint parseLines (efis : EdgarFullIndexScraper)
  (reads : list ReadLineResult) (listBegun : bool) : M W unit :=
  match reads with
  | [] => ret tt
  | r :: rest =>
      let next (listBegun : bool) : M W unit :=
        if readErr r then ret tt else parseLines efis rest listBegun in
      if isPrefix r then
        emit (LogError ["This index file has a line that's too long!"]) ;;
        next listBegun
      else
        match line r with
        | None => next listBegun
        | Some lineStr =>
            if negb listBegun && strings.Contains lineStr "-------" then
              next true
            else if listBegun then
              parseRecord efis lineStr ;; next listBegun
            else next listBegun
        end
  end.

(** The records of a list, one after the other. *)
Fixpoint parseRecords (efis : EdgarFullIndexScraper) (records : list string)
  : M W unit :=
  match records with
  | [] => ret tt
  | lineStr :: rest => parseRecord efis lineStr ;; parseRecords efis rest
  end.

Definition ParseIndexFile (efis : EdgarFullIndexScraper)
  (fileReader : list ReadLineResult) : M W unit :=
  parseLines efis fileReader false.

Definition ScrapeEdgarQuarterlyIndex (efis : EdgarFullIndexScraper)
  : M W unit :=
  emit (LogPrintln ["Starting to scrape the full index for year <";
                    strconv.Itoa (year efis); "> and quarter:";
                    strconv.Itoa (quarter efis)]) ;;
  let indexUrl :=
    EDGAR_FULL_INDEX_URL_PREFIX ++ strconv.Itoa (year efis)
      ++ "/QTR" ++ strconv.Itoa (quarter efis) ++ INDEX_FILE_NAME in
  getResp <- call (CallHttpGet indexUrl) (http_Get indexUrl) ;;
  match getResp with
  | None =>
      emit (LogError ["Failed to retrieve index for url <"; indexUrl])
  | Some resp =>
      if negb (StatusCode resp =? 200) then
        emit (LogError ["Received status code <"; Status resp;
                        "> for url: "; indexUrl])
      else ParseIndexFile efis (bufio_ReadLines (Body resp))
  end.

End WithCollaborators.

End scraper.

(* ===================================================================== *)
(** ** The batch consumer: [main] of PbStockParser.go *)

Module consumer.

Import filings io.
Local Open Scope go_scope.

Definition batchLimit : Z := 20.

Definition setParsed (reportFile : ReportFile) (parsed : bool)
  : ReportFile :=
  mkReportFile (ReportFile_CIK reportFile) (ReportFile_Year reportFile)
    (ReportFile_Quarter reportFile) (ReportFile_Filepath reportFile)
    (ReportFile_FormType reportFile) parsed.

(** The condition of the first [if] of the inner loop: the path names
    none of the form types. *)
Definition notAFinancialForm (filePath : string) : bool :=
  negb (strings.Contains filePath "10-Q") &&
  negb (strings.Contains filePath "10-K") &&
  negb (strings.Contains filePath "10-K_A") &&
  negb (strings.Contains filePath "10-Q_A").

(** [&filings.FinancialReportRaw{CIK: ..., Year: ..., Quarter: ...}] with
    [RawFields = make(map[string]int64)]: the raw report that [main]
    hands to the filing parser. *)
Definition rawStub (reportFile : ReportFile) : FinancialReportRaw :=
  mkFinancialReportRaw (ReportFile_CIK reportFile)
    (ReportFile_Year reportFile) (ReportFile_Quarter reportFile) [].

(** The report files that a trace hands to [InsertUpdateReportFile], in
    order. *)
Fixpoint persisted (tr : list event) : list ReportFile :=
  match tr with
  | [] => []
  | CallInsertUpdateReportFile rf :: rest => rf :: persisted rest
  | _ :: rest => persisted rest
  end.

(** The paths that a trace hands to the filing parser, in order. *)
Fixpoint parsedPaths (tr : list event) : list string :=
  match tr with
  | [] => []
  | CallParse path _ :: rest => path :: parsedPaths rest
  | _ :: rest => parsedPaths rest
  end.

(** The calls of one iteration on [rf], written out.  A file whose path
    contains none of the four form types is only persisted, with
    [Parsed = true] and its other fields as they were pulled; any other
    file is first handed to the filing parser, with a raw report of its
    CIK, year and quarter and no fields. *)
Definition callsOf (rf : ReportFile) : list event :=
  let marked :=
    mkReportFile (ReportFile_CIK rf) (ReportFile_Year rf)
      (ReportFile_Quarter rf) (ReportFile_Filepath rf)
      (ReportFile_FormType rf) true in
  if negb (strings.Contains (ReportFile_Filepath rf) "10-Q") &&
     negb (strings.Contains (ReportFile_Filepath rf) "10-K") &&
     negb (strings.Contains (ReportFile_Filepath rf) "10-K_A") &&
     negb (strings.Contains (ReportFile_Filepath rf) "10-Q_A")
  then [CallInsertUpdateReportFile marked]
  else [CallParse (ReportFile_Filepath rf)
          (mkFinancialReportRaw (ReportFile_CIK rf) (ReportFile_Year rf)
             (ReportFile_Quarter rf) []);
        CallInsertUpdateReportFile marked].

(** The files of a page that go through normalization. *)
Definition normalized (unparsedFiles : list ReportFile) : list ReportFile :=
  filter (fun rf => negb (notAFinancialForm (ReportFile_Filepath rf)))
    unparsedFiles.

Section WithCollaborators.

Context {W : Type}.
Context {reportPersister : PersistReportFiles W}.
Context {frp : FilingParser W}.

(** One iteration of [for _, reportFile := range *unparsedFiles]:
    [reportFile] is the loop's copy of the element, and the result is
    the pair [(numValid, numInvalid)]. *)
Definition processReportFile (reportFile : ReportFile)
  (numValid numInvalid : Z) : M W (Z * Z) :=
  let filePath := ReportFile_Filepath reportFile in
  if notAFinancialForm filePath then
    let reportFile := setParsed reportFile true in
    call (CallInsertUpdateReportFile reportFile)
         (InsertUpdateReportFile reportFile) ;;
    ret (numValid, numInvalid)
  else
    let rawReport := rawStub reportFile in
    fr <- call (CallParse (ReportFile_Filepath reportFile) rawReport)
               (ParseFinancialReport (ReportFile_Filepath reportFile)
                                     rawReport) ;;
    let frValid := IsValid fr in
    let counters :=
      match frValid with
      | None => (Int64.add numValid 1, numInvalid)
      | Some _ => (numValid, Int64.add numInvalid 1)
      end in
    let reportFile := setParsed reportFile true in
    call (CallInsertUpdateReportFile reportFile)
         (InsertUpdateReportFile reportFile) ;;
    ret counters.

Fixpoint processBatch (unparsedFiles : list ReportFile)
  (numValid numInvalid : Z) : M W (Z * Z) :=
  match unparsedFiles with
  | [] => ret (numValid, numInvalid)
  | reportFile :: rest =>
      counters <- processReportFile reportFile numValid numInvalid ;;
      processBatch rest (fst counters) (snd counters)
  end.

(** [for done == false { ... }]: the loop ends at the first empty
    page.  [fuel] bounds the number of pages; [None] is "more pages
    than fuel". *)
Fixpoint mainLoop (fuel : nat) (totalNumValid totalNumInvalid : Z)
  : M W (option (Z * Z)) :=
  match fuel with
  | O => ret None
  | S fuel' =>
      unparsedFiles <- call (CallGetNextUnparsedFiles batchLimit)
                            (GetNextUnparsedFiles batchLimit) ;;
      match unparsedFiles with
      | [] => ret (Some (totalNumValid, totalNumInvalid))
      | _ =>
          counters <- processBatch unparsedFiles 0 0 ;;
          let numValid := fst counters in
          let numInvalid := snd counters in
          let totalNumInvalid := Int64.add totalNumInvalid numInvalid in
          let totalNumValid := Int64.add totalNumValid numValid in
          emit (LogPrintln ["@@@@ Batch had <"; strconv.Itoa numValid;
                            "> valid and invalid: ";
                            strconv.Itoa numInvalid]) ;;
          emit (LogPrintln ["@@@@ Total is <"; strconv.Itoa totalNumValid;
                            "> valid and invalid: ";
                            strconv.Itoa totalNumInvalid]) ;;
          mainLoop fuel' totalNumValid totalNumInvalid
      end
  end.

End WithCollaborators.

End consumer.

(* ===================================================================== *)
(** ** What the specification says, for comparison with the code *)

Module spec.

(** The instance-document pattern of the specification,
    [[a-z0-9]+-[0-9]+\.xml], with a literal dot. *)
Definition instancePattern : regexp.regex :=
  regexp.Cat (regexp.Plus (regexp.Alt (regexp.Range "a" "z")
                                      (regexp.Range "0" "9")))
 (regexp.Cat (regexp.Chr "-")
 (regexp.Cat (regexp.Plus (regexp.Range "0" "9"))
             (regexp.Lit ".xml"))).

(** A name "matches the pattern": read as the whole name, and read as
    Go's search for the pattern inside the name. *)
Definition hasInstanceShape (name : string) : bool :=
  regexp.fullMatch instancePattern name.

Definition containsInstanceShape (name : string) : bool :=
  regexp.MatchString instancePattern name.

(** The package URL of the specification: the 4th component loses
    exactly its [.txt] suffix, and is replaced by
    [<dashless>/<basename>-xbrl.zip]. *)
Definition packageUrl (filename : string) : option string :=
  let parts := strings.Split filename "/" in
  match nth_error parts 3 with
  | None => None
  | Some p3 =>
      let basename := strings.TrimSuffix p3 ".txt" in
      let dashless := strings.ReplaceAll basename "-" "" in
      Some ("http://www.sec.gov/Archives/"
              ++ strings.Join
                   (io.setIndex parts 3
                      (dashless ++ "/" ++ basename ++ "-xbrl.zip")) "/")
  end.

(** A base name that [strings.Trim(_, ".txt")] leaves alone: it is not
    empty and neither its first nor its last byte is one of [.], [t],
    [x].  SEC accession numbers, which begin and end with a digit, are of
    this kind. *)
Definition cleanEnds (basename : string) : bool :=
  match basename, strings.reverse basename with
  | String first _, String last _ =>
      negb (strings.inCutset first ".txt")
      && negb (strings.inCutset last ".txt")
  | _, _ => false
  end.

End spec.

(* ===================================================================== *)
(** ** An in-memory world, to run the code on concrete inputs *)

Module mem.

Import filings io.

Record World := mkWorld {
  blobs : list (string * string * string);
  web : list (string * Response);
  archives : list (string * list ZipFile);
  now : Z;
  companies : list Company;
  reportFiles : list ReportFile;
  parsed : list (string * FinancialReport)
}.

Definition pathOf (bucket name : string) : string :=
  "/tmp/" ++ bucket ++ "/" ++ name.

Fixpoint lookup {A} (k : string) (l : list (string * A)) : option A :=
  match l with
  | [] => None
  | (k', v) :: rest => if String.eqb k k' then Some v else lookup k rest
  end.

Fixpoint blobAt (path : string) (l : list (string * string * string))
  : option string :=
  match l with
  | [] => None
  | (bucket, name, content) :: rest =>
      if String.eqb path (pathOf bucket name) then Some content
      else blobAt path rest
  end.

Definition sameFiling (a b : ReportFile) : bool :=
  (ReportFile_CIK a =? ReportFile_CIK b)
  && (ReportFile_Year a =? ReportFile_Year b)
  && (ReportFile_Quarter a =? ReportFile_Quarter b)
  && String.eqb (ReportFile_FormType a) (ReportFile_FormType b).

Fixpoint upsert (rf : ReportFile) (l : list ReportFile) : list ReportFile :=
  match l with
  | [] => [rf]
  | x :: rest => if sameFiling rf x then rf :: rest else x :: upsert rf rest
  end.

(** The size of the buffer of [bufio.NewReader]. *)
Definition bufferSize : nat := 4096.

(** A line without the carriage return that ends it; [cur] holds the
    line backwards. *)
Definition dropCR (cur : string) : string :=
  match cur with
  | String c rest => if Ascii.eqb c "013" then rest else cur
  | EmptyString => cur
  end.

(** [bufio.Reader.ReadLine] over a body that is all in memory; [cur] is
    the line read so far, backwards, and [n] its length.  A line ends at
    a line feed, which is dropped together with a carriage return before
    it.  When [bufferSize] bytes are buffered without a line feed they
    are handed out with [isPrefix] set, a carriage return at the end of
    the buffer being kept back for the next read.  What follows the last
    line feed is a last line. *)
Fixpoint readLines (body : string) (cur : string) (n : nat)
  : list ReadLineResult :=
  match body with
  | EmptyString =>
      match cur with
      | EmptyString => []
      | _ => [mkRead (Some (strings.reverse cur)) false false]
      end
  | String c t =>
      if Ascii.eqb c "010" then
        mkRead (Some (strings.reverse (dropCR cur))) false false
          :: readLines t EmptyString 0
      else if Nat.eqb (S n) bufferSize then
        if Ascii.eqb c "013" then
          mkRead (Some (strings.reverse cur)) true false
            :: readLines t (String c EmptyString) 1
        else
          mkRead (Some (strings.reverse (String c cur))) true false
            :: readLines t EmptyString 0
      else readLines t (String c cur) (S n)
  end.

Definition zeroReport : FinancialReport :=
  mkFinancialReport 0 0 0 0 0 0 0 0 0 0 0 0.

#[global] Instance memCompany : PersistCompany World := {
  InsertUpdateCompany c w :=
    (tt, mkWorld (blobs w) (web w) (archives w) (now w)
           (c :: companies w) (reportFiles w) (parsed w))
}.

#[global] Instance memReportFiles : PersistReportFiles World := {
  InsertUpdateReportFile rf w :=
    (tt, mkWorld (blobs w) (web w) (archives w) (now w)
           (companies w) (upsert rf (reportFiles w)) (parsed w));
  GetNextUnparsedFiles limit w :=
    (firstn (Z.to_nat limit)
       (filter (fun rf => negb (ReportFile_Parsed rf)) (reportFiles w)), w)
}.

#[global] Instance memStore : TempStore World := {
  GetFilePath bucket key w :=
    (match blobAt (pathOf bucket key) (blobs w) with
     | Some _ => pathOf bucket key
     | None => EmptyString
     end, w);
  StoreFile bucket name content w :=
    (pathOf bucket name,
     mkWorld ((bucket, name, content) :: blobs w) (web w) (archives w)
       (now w) (companies w) (reportFiles w) (parsed w))
}.

#[global] Instance memOutside : Outside World := {
  http_Get url w := (lookup url (web w), w);
  time_Now_Unix w :=
    (now w, mkWorld (blobs w) (web w) (archives w) (now w + 1)
              (companies w) (reportFiles w) (parsed w));
  zip_OpenReader path w :=
    (match blobAt path (blobs w) with
     | Some content => lookup content (archives w)
     | None => None
     end, w);
  bufio_ReadLines body :=
    readLines body EmptyString 0
}.

#[global] Instance memParser : FilingParser World := {
  ParseFinancialReport path raw w :=
    (match lookup path (parsed w) with
     | Some fr => fr
     | None => zeroReport
     end, w)
}.

(** A store that cannot keep anything: every call answers the empty
    path. *)
Definition fullStore : TempStore World := {|
  GetFilePath := fun _ _ w => (EmptyString, w);
  StoreFile := fun _ _ _ w => (EmptyString, w)
|}.

(** A fresh store and an empty network. *)
Definition empty : World := mkWorld [] [] [] 1600000000 [] [] [].

End mem.

(* ===================================================================== *)
(** ** Concrete runs: an index, a filing and its package *)

Module scenario.

Import filings io.

Definition efis : scraper.EdgarFullIndexScraper := scraper.mkScraper 2020 1.

Definition rd (l : string) : ReadLineResult := mkRead (Some l) false false.

Definition acmeFilename : string :=
  "edgar/data/12345/0000012345-20-000012.txt".

Definition acmeLine : string :=
  "0000012345|Acme Corp|10-K|2020-03-01|" ++ acmeFilename.

Definition acmeUrl : string :=
  "http://www.sec.gov/Archives/edgar/data/12345/000001234520000012/0000012345-20-000012-xbrl.zip".

Definition acmeZip : string := "PK-acme".

Definition acmeArchive : list ZipFile :=
  [mkZipFile "acme-20191231_cal.xml" (Some "<linkbase/>");
   mkZipFile "acme-20191231.xml" (Some "<xbrl/>");
   mkZipFile "acme-20191231.xsd" (Some "<schema/>")].

(** A fresh store, and a network that serves the package of the Acme
    filing. *)
Definition online : mem.World :=
  mem.mkWorld [] [(acmeUrl, mkResponse "200 OK" 200 acmeZip)]
    [(acmeZip, acmeArchive)] 1600000000 [] [] [].

(** The same, but the server answers 404 with an error page. *)
Definition notFound : mem.World :=
  mem.mkWorld []
    [(acmeUrl, mkResponse "404 Not Found" 404 "<html>Not Found</html>")]
    [(acmeZip, acmeArchive)] 1600000000 [] [] [].

(** The same, but an intermediary answers 203 with the package. *)
Definition nonAuthoritative : mem.World :=
  mem.mkWorld []
    [(acmeUrl, mkResponse "203 Non-Authoritative Information" 203 acmeZip)]
    [(acmeZip, acmeArchive)] 1600000000 [] [] [].

(** An archive in which a text exhibit precedes the instance
    document. *)
Definition exhibitArchive : list ZipFile :=
  [mkZipFile "exhibit-99_xml.txt" (Some "notes");
   mkZipFile "acme-20191231.xml" (Some "<xbrl/>")].

Definition withExhibit : mem.World :=
  mem.mkWorld [("CIK_0000012345", "package.zip", acmeZip)] []
    [(acmeZip, exhibitArchive)] 1600000000 [] [] [].

Definition stub (cik : Z) : ReportFile :=
  mkReportFile cik 2020 1 "" "10-K" false.

(** A store that already holds a downloaded package. *)
Definition holding (archive : list ZipFile) : mem.World :=
  mem.mkWorld [("CIK_0000012345", "package.zip", acmeZip)] []
    [(acmeZip, archive)] 1600000000 [] [] [].

Definition packagePath : string := "/tmp/CIK_0000012345/package.zip".

(** The linkbases and the schema of the Acme package, without the
    instance document. *)
Definition linkbasesOnly : list ZipFile :=
  [mkZipFile "acme-20191231_cal.xml" (Some "<linkbase/>");
   mkZipFile "acme-20191231.xsd" (Some "<schema/>")].

(** An archive whose first matching entry cannot be opened. *)
Definition brokenArchive : list ZipFile :=
  [mkZipFile "acme-20191231_cal.xml" (Some "<linkbase/>");
   mkZipFile "acme-20191231.xml" None;
   mkZipFile "acme-20200331.xml" (Some "<xbrl/>")].

(** A page of the work queue: an annual report, a current report and a
    quarterly report. *)
Definition page : list ReportFile :=
  [mkReportFile 12345 2020 1 "/tmp/CIK_0000012345/Y2020Q1FT10-K" "10-K" false;
   mkReportFile 12345 2020 1 "/tmp/CIK_0000012345/Y2020Q1FT8-K" "8-K" false;
   mkReportFile 67890 2020 1 "/tmp/CIK_0000067890/Y2020Q1FT10-Q" "10-Q" false].


End scenario.

(* ===================================================================== *)
(** * Properties *)

(** ** Sanity checks of the library models *)

Example Split_empty : strings.Split "" "|" = [""].
Proof. reflexivity. Qed.

Example Split_trailing : strings.Split "a|b|" "|" = ["a"; "b"; ""].
Proof. reflexivity. Qed.

Example Trim_cutset : strings.Trim "text-1.txt" ".txt" = "ext-1".
Proof. reflexivity. Qed.

Example TrimSuffix_once : strings.TrimSuffix "text-1.txt" ".txt" = "text-1".
Proof. reflexivity. Qed.

Example Atoi_padded : strconv.Atoi "0000012345" = (12345, None).
Proof. reflexivity. Qed.

Example Atoi_letters : strconv.Atoi "12a" = (0, Some strconv.ErrSyntax).
Proof. reflexivity. Qed.

Example Atoi_huge :
  strconv.Atoi "99999999999999999999" = (Int64.max_int, Some strconv.ErrRange).
Proof. reflexivity. Qed.

Example Itoa_2020 : strconv.Itoa 2020 = "2020".
Proof. reflexivity. Qed.

Example Itoa_neg : strconv.Itoa (-7) = "-7".
Proof. reflexivity. Qed.

Example Itoa_zero : strconv.Itoa 0 = "0".
Proof. reflexivity. Qed.

(* ===================================================================== *)
(** ** [filings]: validation and the previous quarter *)

Section Validation.

Import filings.

Lemma append_nil_inv (a b : string) : a ++ b = "" -> a = "" /\ b = "".
Proof. destruct a; simpl; intros H; [auto | discriminate]. Qed.

Lemma missing_nil (value : Z) (name acc : string) :
  name <> "" ->
  (missing value name acc = "" <-> acc = "" /\ value <> 0).
Proof.
  intros Hname. unfold missing.
  destruct (Z.eqb_spec value 0) as [Hz | Hz].
  - split.
    + intros H. apply append_nil_inv in H. tauto.
    + tauto.
  - tauto.
Qed.

Lemma missing_keep (value : Z) (name acc : string) :
  value <> 0 -> missing value name acc = acc.
Proof.
  intros H. unfold missing. apply Z.eqb_neq in H. now rewrite H.
Qed.

Lemma length_pos_nil (s : string) :
  (0 <? String.length s)%nat = false <-> s = "".
Proof. destruct s; split; intros H; try reflexivity; discriminate. Qed.

(** C7. [IsValid] returns no error exactly when all nine canonical
    metrics are non-zero; and a report in which only
    [CapitalExpenditures] is zero gets the error whose text is exactly
    ["CapitalExpenditures,"]. *)
Theorem IsValid_iff_all_nine_nonzero (fr : FinancialReport) :
  (IsValid fr = None <-> allNineSet fr) /\
  (Revenue fr <> 0 -> OperatingExpense fr <> 0 -> NetIncome fr <> 0 ->
   CurrentAssets fr <> 0 -> TotalAssets fr <> 0 ->
   CurrentLiabilities fr <> 0 -> TotalLiabilities fr <> 0 ->
   OperatingCash fr <> 0 -> CapitalExpenditures fr = 0 ->
   IsValid fr = Some "CapitalExpenditures,").
Proof.
  split.
  - unfold IsValid, allNineSet. cbv zeta.
    match goal with
    | |- (if (0 <? String.length ?m)%nat then _ else _) = None <-> _ =>
        assert (Hm : m = "" <-> allNineSet fr);
        [ | destruct (0 <? String.length m)%nat eqn:Hlen ]
    end.
    + unfold allNineSet.
      repeat (rewrite missing_nil by discriminate). tauto.
    + split; [discriminate | ].
      intros Hall. apply Hm in Hall. apply length_pos_nil in Hall.
      congruence.
    + split; [ | reflexivity].
      intros _. apply Hm. now apply length_pos_nil.
  - intros H1 H2 H3 H4 H5 H6 H7 H8 H9. unfold IsValid. cbv zeta.
    rewrite (missing_keep (Revenue fr)), (missing_keep (OperatingExpense fr)),
      (missing_keep (NetIncome fr)), (missing_keep (TotalAssets fr)),
      (missing_keep (TotalLiabilities fr)), (missing_keep (CurrentAssets fr)),
      (missing_keep (CurrentLiabilities fr)),
      (missing_keep (OperatingCash fr)) by assumption.
    unfold missing. rewrite H9. reflexivity.
Qed.

Lemma IsValid_iff_all_nine_nonzero_witness :
  let fr := mkFinancialReport 320193 2012 3 100 80 20 50 200 40 120 30 0 in
  IsValid fr = Some "CapitalExpenditures,".
Proof.
  intros fr.
  apply (proj2 (IsValid_iff_all_nine_nonzero fr));
    simpl; first [reflexivity | discriminate].
Defined.

(** C9. For a quarter in 1..4, [GetPreviousQuarter] answers quarter 4 of
    the year before when the quarter is 1, and the quarter before of the
    same year otherwise; the quarter it answers is again in 1..4.  The
    year before is Go's [Year - 1] on [int64], which is the integer
    [Year - 1] for every year above the least [int64]. *)
Theorem GetPreviousQuarter_valid (frr : FinancialReportRaw) :
  Int64.in_range (Raw_Year frr) ->
  1 <= Raw_Quarter frr <= 4 ->
  1 <= snd (GetPreviousQuarter frr) <= 4 /\
  Int64.in_range (fst (GetPreviousQuarter frr)) /\
  (Raw_Quarter frr = 1 ->
     GetPreviousQuarter frr = (Int64.sub (Raw_Year frr) 1, 4) /\
     (Int64.min_int < Raw_Year frr ->
        GetPreviousQuarter frr = (Raw_Year frr - 1, 4))) /\
  (Raw_Quarter frr <> 1 ->
     GetPreviousQuarter frr = (Raw_Year frr, Raw_Quarter frr - 1)).
Proof.
  unfold Int64.in_range, Int64.min_int, Int64.max_int.
  intros Hy Hq. unfold GetPreviousQuarter.
  destruct (Z.eqb_spec (Raw_Quarter frr) 1) as [E | E]; simpl.
  - repeat split; try lia.
    + unfold Int64.sub, Int64.wrap.
      pose proof (Z.mod_pos_bound (Raw_Year frr - 1 + 2 ^ 63) (2 ^ 64)).
      lia.
    + unfold Int64.sub, Int64.wrap.
      pose proof (Z.mod_pos_bound (Raw_Year frr - 1 + 2 ^ 63) (2 ^ 64)).
      lia.
    + intros Hmin. f_equal. unfold Int64.sub, Int64.wrap.
      rewrite Z.mod_small; lia.
  - assert (Hsub : Int64.sub (Raw_Quarter frr) 1 = Raw_Quarter frr - 1).
    { unfold Int64.sub, Int64.wrap. rewrite Z.mod_small; lia. }
    rewrite Hsub. repeat split; try lia; try congruence.
Qed.

Lemma GetPreviousQuarter_valid_witness :
  GetPreviousQuarter (mkFinancialReportRaw 320193 2013 1 []) = (2012, 4) /\
  GetPreviousQuarter (mkFinancialReportRaw 320193 2013 3 []) = (2013, 2).
Proof.
  split.
  - apply (GetPreviousQuarter_valid (mkFinancialReportRaw 320193 2013 1 []));
      unfold Int64.in_range, Int64.min_int, Int64.max_int; simpl;
      first [lia | reflexivity].
  - apply (GetPreviousQuarter_valid (mkFinancialReportRaw 320193 2013 3 []));
      unfold Int64.in_range, Int64.min_int, Int64.max_int; simpl;
      first [lia | discriminate].
Defined.

End Validation.

(* ===================================================================== *)
(** ** [strings.Contains] is the substring relation *)

Section Substrings.

Lemma HasPrefix_iff (s prefix : string) :
  strings.HasPrefix s prefix = true <-> exists rest, s = prefix ++ rest.
Proof.
  revert s. induction prefix as [ | a p IH]; intros s.
  - split; [intros _; now exists s | intros _; now destruct s].
  - destruct s as [ | b t]; simpl.
    + split; [discriminate | intros [rest H]; discriminate].
    + rewrite andb_true_iff, IH. split.
      * intros [Hab [rest ->]]. apply Ascii.eqb_eq in Hab. subst b.
        now exists rest.
      * intros [rest Heq]. injection Heq as -> ->.
        split; [apply Ascii.eqb_refl | now exists rest].
Qed.

Lemma Contains_iff (s substr : string) :
  strings.Contains s substr = true <->
  exists before after, s = before ++ substr ++ after.
Proof.
  induction s as [ | c t IH].
  - change (strings.Contains "" substr)
      with (strings.HasPrefix "" substr || false).
    rewrite orb_false_r, HasPrefix_iff. split.
    + intros [rest H]. now exists "", rest.
    + intros [before [after H]]. destruct before; simpl in H.
      * now exists after.
      * discriminate.
  - change (strings.Contains (String c t) substr)
      with (strings.HasPrefix (String c t) substr
            || strings.Contains t substr).
    rewrite orb_true_iff, HasPrefix_iff, IH. split.
    + intros [[rest H] | [before [after H]]].
      * now exists "", rest.
      * exists (String c before), after. simpl. now rewrite H.
    + intros [before [after H]]. destruct before as [ | b before].
      * left. now exists after.
      * right. simpl in H. injection H as _ H. now exists before, after.
Qed.

End Substrings.

(* ===================================================================== *)
(** ** The batch consumer *)

Section Consumer.

Import filings io consumer.

Context {W : Type}.
Context {reportPersister : PersistReportFiles W}.
Context {frp : FilingParser W}.


(** What one iteration does to a file that goes through normalization,
    whatever the verdict of [IsValid]. *)
Lemma processReportFile_normalized (reportFile : ReportFile)
  (numValid numInvalid : Z) (w : W) :
  notAFinancialForm (ReportFile_Filepath reportFile) = false ->
  let path := ReportFile_Filepath reportFile in
  let parse := ParseFinancialReport path (rawStub reportFile) w in
  let marked := setParsed reportFile true in
  processReportFile reportFile numValid numInvalid w =
  Returned
    (match IsValid (fst parse) with
     | None => (Int64.add numValid 1, numInvalid)
     | Some _ => (numValid, Int64.add numInvalid 1)
     end)
    (snd (InsertUpdateReportFile marked (snd parse)))
    [CallParse path (rawStub reportFile); CallInsertUpdateReportFile marked].
Proof.
  intros Hform. unfold processReportFile. rewrite Hform.
  unfold bind, call, ret, rawStub. simpl.
  destruct (ParseFinancialReport _ _ w) as [fr w1]. simpl.
  destruct (InsertUpdateReportFile _ w1) as [u w2]. simpl.
  reflexivity.
Qed.

Lemma processReportFile_skipped (reportFile : ReportFile)
  (numValid numInvalid : Z) (w : W) :
  notAFinancialForm (ReportFile_Filepath reportFile) = true ->
  let marked := setParsed reportFile true in
  processReportFile reportFile numValid numInvalid w =
  Returned (numValid, numInvalid)
    (snd (InsertUpdateReportFile marked w))
    [CallInsertUpdateReportFile marked].
Proof.
  intros Hform. unfold processReportFile. rewrite Hform.
  unfold bind, call, ret. simpl.
  destruct (InsertUpdateReportFile _ w) as [u w1]. simpl.
  reflexivity.
Qed.

(** One iteration returns, and its calls are [callsOf]. *)
Lemma processReportFile_trace (rf : ReportFile) (nv ni : Z) (w : W) :
  exists c w1, processReportFile rf nv ni w = Returned c w1 (callsOf rf).
Proof.
  unfold callsOf.
  destruct (notAFinancialForm (ReportFile_Filepath rf)) eqn:Hform.
  - rewrite (processReportFile_skipped rf nv ni w Hform).
    unfold notAFinancialForm in Hform. rewrite Hform.
    do 2 eexists. reflexivity.
  - rewrite (processReportFile_normalized rf nv ni w Hform).
    unfold notAFinancialForm in Hform. rewrite Hform.
    do 2 eexists. reflexivity.
Qed.

(** The calls of a page are those of its files, one file after the
    other. *)
Lemma processBatch_trace (unparsedFiles : list ReportFile) :
  forall (nv ni : Z) (w : W),
    exists c w1,
      processBatch unparsedFiles nv ni w =
      Returned c w1 (flat_map callsOf unparsedFiles).
Proof.
  induction unparsedFiles as [ | rf rest IH]; intros nv ni w.
  - do 2 eexists. reflexivity.
  - cbn [processBatch flat_map]. unfold bind.
    destruct (processReportFile_trace rf nv ni w) as (c & w1 & ->).
    destruct (IH (fst c) (snd c) w1) as (c2 & w2 & ->).
    do 2 eexists. reflexivity.
Qed.




End Consumer.



(* ===================================================================== *)
(** ** The index parser: one record *)

Section IndexRecord.

Import filings io scraper.

Context {W : Type}.
Context {persister : PersistCompany W}.
Context {reportPersister : PersistReportFiles W}.
Context {ts : TempStore W}.
Context {outside : Outside W}.

(** A record with at least five fields, up to the answer of the store:
    the company step, the log line and the lookup, then either the skip
    or [GetXbrl]. *)
Lemma parseRecord_fields (efis : EdgarFullIndexScraper)
  (lineStr cik companyName formType dateFiled filename : string)
  (more : list string) (w : W) :
  strings.Split lineStr "|" =
    cik :: companyName :: formType :: dateFiled :: filename :: more ->
  let bucket := getBucket cik in
  let fileKey := getKey formType (year efis) (quarter efis) in
  let w1 := afterCompany cik companyName w in
  let filePath := fst (GetFilePath bucket fileKey w1) in
  let w2 := snd (GetFilePath bucket fileKey w1) in
  let prefix :=
    (companyEvents cik companyName ++
     [recordLog cik companyName formType dateFiled filename;
      CallGetFilePath bucket fileKey])%list in
  parseRecord efis lineStr w =
  if String.eqb filePath "" then
    match GetXbrl filename bucket fileKey (stubFor efis cik formType) w2 with
    | Returned a w3 tr => Returned a w3 (prefix ++ tr)%list
    | Panicked msg w3 tr => Panicked msg w3 (prefix ++ tr)%list
    end
  else
    Returned tt w2
      (prefix ++
       [LogPrintln ["SKIP <"; filename;
                    "> because it already exists in: "; filePath]])%list.
Proof.
  intros Hsplit. unfold parseRecord. rewrite Hsplit.
  unfold afterCompany, companyEvents, stubFor, recordLog.
  unfold index, bind, ret, call, emit. cbn [nth_error app].
  destruct (strconv.Atoi cik) as [cikInt [err | ]]; cbn [fst snd app].
  - destruct (GetFilePath _ _ w) as [filePath w2]. cbn [fst snd app].
    destruct (String.eqb filePath ""); [ | reflexivity].
    destruct (GetXbrl _ _ _ _ w2); reflexivity.
  - destruct (InsertUpdateCompany _ w) as [u w1]. cbn [fst snd app].
    destruct (GetFilePath _ _ w1) as [filePath w2]. cbn [fst snd app].
    destruct (String.eqb filePath ""); [ | reflexivity].
    destruct (GetXbrl _ _ _ _ w2); reflexivity.
Qed.

Lemma companyEvents_no_download (cik companyName : string) (e : event) :
  In e (companyEvents cik companyName) -> isDownloadCall e = false.
Proof.
  unfold companyEvents.
  destruct (strconv.Atoi cik) as [cikInt [err | ]];
    intros [<- | []]; reflexivity.
Qed.

(** C6. A record with its five fields whose derived (bucket, key) the
    store already maps to a non-empty path is skipped: the record
    returns after the lookup with the SKIP log line, and nothing of the
    download path is called (no fetch, no write to the store, no
    report-file record).  The download path is only entered when the
    store answers the empty path, and then [GetXbrl] runs on the stub
    with [Parsed = false]. *)
Theorem cached_record_is_skipped (efis : EdgarFullIndexScraper)
  (lineStr cik companyName formType dateFiled filename : string)
  (more : list string) (w : W) :
  strings.Split lineStr "|" =
    cik :: companyName :: formType :: dateFiled :: filename :: more ->
  let bucket := getBucket cik in
  let fileKey := getKey formType (year efis) (quarter efis) in
  let w1 := afterCompany cik companyName w in
  let filePath := fst (GetFilePath bucket fileKey w1) in
  let w2 := snd (GetFilePath bucket fileKey w1) in
  let o := parseRecord efis lineStr w in
  (filePath <> "" ->
     o = Returned tt w2
           (companyEvents cik companyName ++
            [recordLog cik companyName formType dateFiled filename;
             CallGetFilePath bucket fileKey;
             LogPrintln ["SKIP <"; filename;
                         "> because it already exists in: "; filePath]])
     /\ (forall e, In e (trace o) -> isDownloadCall e = false)) /\
  ((exists e, In e (trace o) /\ isDownloadCall e = true) ->
     filePath = "" /\
     trace o =
       (companyEvents cik companyName ++
        [recordLog cik companyName formType dateFiled filename;
         CallGetFilePath bucket fileKey] ++
        trace (GetXbrl filename bucket fileKey
                 (stubFor efis cik formType) w2))%list).
Proof.
  intros Hsplit bucket fileKey w1 filePath w2 o.
  pose proof (parseRecord_fields efis lineStr cik companyName formType
                dateFiled filename more w Hsplit) as Heq.
  cbv zeta in Heq. fold bucket fileKey w1 filePath w2 o in Heq.
  assert (Hskip : filePath <> "" ->
     o = Returned tt w2
           (companyEvents cik companyName ++
            [recordLog cik companyName formType dateFiled filename;
             CallGetFilePath bucket fileKey;
             LogPrintln ["SKIP <"; filename;
                         "> because it already exists in: "; filePath]])
     /\ (forall e, In e (trace o) -> isDownloadCall e = false)).
  { intros Hpath. apply String.eqb_neq in Hpath. rewrite Hpath in Heq.
    rewrite <- app_assoc in Heq. simpl in Heq.
    split; [exact Heq | ].
    rewrite Heq. simpl. intros e He. apply in_app_or in He.
    destruct He as [He | He].
    - now apply companyEvents_no_download in He.
    - simpl in He. destruct He as [<- | [<- | [<- | []]]]; reflexivity. }
  split; [exact Hskip | ].
  intros (e & Hin & Hdl).
  destruct (String.eqb_spec filePath "") as [Hempty | Hne].
  - split; [exact Hempty | ].
    rewrite Heq.
    destruct (GetXbrl filename bucket fileKey (stubFor efis cik formType) w2);
      simpl; now rewrite <- app_assoc.
  - destruct (Hskip Hne) as [_ Hnone].
    rewrite (Hnone e Hin) in Hdl. discriminate.
Qed.

End IndexRecord.

Lemma cached_record_is_skipped_witness :
  let efis := scraper.mkScraper 2020 1 in
  let w :=
    mem.mkWorld [("CIK_0000012345", "Y2020Q1FT10-K", "<xbrl/>")] [] [] 1600000000
      [] [] [] in
  scraper.parseRecord efis
    "0000012345|Acme Corp|10-K|2020-03-01|edgar/data/12345/0000012345-20-000012.txt"
    w =
  io.Returned tt
    (mem.mkWorld [("CIK_0000012345", "Y2020Q1FT10-K", "<xbrl/>")] [] []
       1600000000 [filings.mkCompany 12345 "Acme Corp"] [] [])
    [io.CallInsertUpdateCompany (filings.mkCompany 12345 "Acme Corp");
     scraper.recordLog "0000012345" "Acme Corp" "10-K" "2020-03-01"
       "edgar/data/12345/0000012345-20-000012.txt";
     io.CallGetFilePath "CIK_0000012345" "Y2020Q1FT10-K";
     io.LogPrintln
       ["SKIP <"; "edgar/data/12345/0000012345-20-000012.txt";
        "> because it already exists in: ";
        "/tmp/CIK_0000012345/Y2020Q1FT10-K"]].
Proof.
  intros efis w.
  assert (Hcached :
    fst (io.GetFilePath (scraper.getBucket "0000012345")
           (scraper.getKey "10-K" (scraper.year efis) (scraper.quarter efis))
           (scraper.afterCompany "0000012345" "Acme Corp" w)) <> "").
  { vm_compute. discriminate. }
  exact (proj1 (proj1
    (cached_record_is_skipped (W := mem.World) efis
       "0000012345|Acme Corp|10-K|2020-03-01|edgar/data/12345/0000012345-20-000012.txt"
       "0000012345" "Acme Corp" "10-K" "2020-03-01"
       "edgar/data/12345/0000012345-20-000012.txt" [] w eq_refl) Hcached)).
Defined.

(* ===================================================================== *)
(** ** Retrieval and extraction *)

Section Retrieval.

Import filings io scraper.

Context {W : Type}.
Context {persister : PersistCompany W}.
Context {reportPersister : PersistReportFiles W}.
Context {ts : TempStore W}.
Context {outside : Outside W}.

(** An archive without a matching entry: the scan reaches the end and
    calls nothing. *)
Lemma scanZip_no_match (files : list ZipFile) (bucket fileKey : string)
  (reportFile : ReportFile) (w : W) :
  (forall f, In f files -> isXbrlFileMatch (ZipFile_Name f) = false) ->
  scanZip files bucket fileKey reportFile w = Returned false w [].
Proof.
  induction files as [ | f rest IH]; intros Hnone; simpl.
  - reflexivity.
  - rewrite (Hnone f (or_introl eq_refl)).
    apply IH. intros g Hg. apply Hnone. now right.
Qed.

(** The first matching entry in archive order is the one extracted,
    and no entry after it is looked at. *)
Lemma scanZip_first_match (before after : list ZipFile) (f : ZipFile)
  (content bucket fileKey : string) (reportFile : ReportFile) (w : W) :
  (forall g, In g before -> isXbrlFileMatch (ZipFile_Name g) = false) ->
  isXbrlFileMatch (ZipFile_Name f) = true ->
  ZipFile_Open f = Some content ->
  let stored := StoreFile bucket fileKey content w in
  let record := withFilepath reportFile (fst stored) in
  scanZip (before ++ f :: after) bucket fileKey reportFile w =
  Returned true (snd (InsertUpdateReportFile record (snd stored)))
    [LogPrintln ["Found zipped file: "; ZipFile_Name f];
     CallZipFileOpen (ZipFile_Name f);
     CallStoreFile bucket fileKey content;
     CallInsertUpdateReportFile record].
Proof.
  intros Hbefore Hmatch Hopen.
  induction before as [ | g rest IH]; simpl.
  - rewrite Hmatch, Hopen. unfold bind, emit, call, ret, withFilepath.
    destruct (StoreFile bucket fileKey content w) as [path w1].
    cbn [fst snd app].
    destruct (InsertUpdateReportFile _ w1) as [u w2]. reflexivity.
  - rewrite (Hbefore g (or_introl eq_refl)).
    apply IH. intros h Hh. apply Hbefore. now right.
Qed.

(** No matching entry: the archive is opened, the miss is logged, and
    no report file is produced. *)
Lemma getXbrlFromZip_no_match (files : list ZipFile)
  (zipFileName bucket fileKey : string) (reportFile : ReportFile) (w : W) :
  fst (zip_OpenReader zipFileName w) = Some files ->
  (forall f, In f files -> isXbrlFileMatch (ZipFile_Name f) = false) ->
  getXbrlFromZip zipFileName bucket fileKey reportFile w =
  Returned tt (snd (zip_OpenReader zipFileName w))
    [CallZipOpenReader zipFileName;
     LogError ["Could not find a match for an xbrl in "; zipFileName]].
Proof.
  intros Hopen Hnone. unfold getXbrlFromZip, bind, call.
  destruct (zip_OpenReader zipFileName w) as [zr w1]. simpl in Hopen.
  subst zr. rewrite (scanZip_no_match files _ _ _ w1 Hnone). reflexivity.
Qed.

(** A failed GET ends the record: nothing is stored and the archive
    reader is never called. *)
Lemma GetXbrl_get_error (edgarFilename bucket fileKey baseName fullUrl : string)
  (reportFile : ReportFile) (w : W) :
  strings.Contains edgarFilename ".txt" = true ->
  packageUrl edgarFilename = Some (baseName, fullUrl) ->
  fst (http_Get fullUrl w) = None ->
  GetXbrl edgarFilename bucket fileKey reportFile w =
  Returned tt (snd (http_Get fullUrl w))
    [LogPrintln ["Getting xbrl zip from "; fullUrl];
     CallHttpGet fullUrl;
     LogError ["Failed get to: "; fullUrl]].
Proof.
  intros Htxt Hurl Hget. unfold GetXbrl. rewrite Htxt, Hurl.
  unfold bind, emit, call. cbn [negb].
  destruct (http_Get fullUrl w) as [resp w1]. simpl in Hget. subst resp.
  reflexivity.
Qed.

(** [GetXbrl] never looks at the status code: the body of every
    response, whatever its status, is written to the blob store. *)
Lemma GetXbrl_stores_any_response
  (edgarFilename bucket fileKey baseName fullUrl : string)
  (resp : Response) (reportFile : ReportFile) (w : W) :
  strings.Contains edgarFilename ".txt" = true ->
  packageUrl edgarFilename = Some (baseName, fullUrl) ->
  fst (http_Get fullUrl w) = Some resp ->
  let clock := time_Now_Unix (snd (http_Get fullUrl w)) in
  In (CallStoreFile bucket
        (strconv.Itoa (fst clock) ++ baseName ++ XBRL_ZIP_SUFFIX)
        (Body resp))
     (trace (GetXbrl edgarFilename bucket fileKey reportFile w)).
Proof.
  intros Htxt Hurl Hget. unfold GetXbrl. rewrite Htxt, Hurl.
  unfold bind, emit, call, ret. cbn [negb].
  destruct (http_Get fullUrl w) as [r w1]. simpl in Hget. subst r.
  cbn [fst snd].
  destruct (time_Now_Unix w1) as [now w2]. cbn [fst snd].
  destruct (StoreFile _ _ _ w2) as [zipFilePath w3].
  destruct (negb (zipFilePath =? "")%string).
  - destruct (getXbrlFromZip _ _ _ _ w3); simpl; auto.
  - simpl; auto.
Qed.

(** A line that splits into fewer than five fields stops the goroutine
    at the first missing field. *)
Lemma short_record_panics (efis : EdgarFullIndexScraper) (lineStr : string)
  (w : W) :
  (List.length (strings.Split lineStr "|") < 5)%nat ->
  parseRecord efis lineStr w = Panicked "index out of range" w [].
Proof.
  intros Hlen. unfold parseRecord.
  destruct (strings.Split lineStr "|") as [ | e0 [ | e1 [ | e2 [ | e3 [ | e4 l]]]]];
    simpl in Hlen; try lia; reflexivity.
Qed.

(** ... and with it the whole of [ParseIndexFile]: the lines after it
    are never read. *)
Lemma parseLines_short_record (efis : EdgarFullIndexScraper)
  (lineStr : string) (err : bool) (rest : list ReadLineResult) (w : W) :
  (List.length (strings.Split lineStr "|") < 5)%nat ->
  parseLines efis (mkRead (Some lineStr) false err :: rest) true w =
  Panicked "index out of range" w [].
Proof.
  intros Hlen. simpl. unfold bind.
  now rewrite (short_record_panics efis lineStr w Hlen).
Qed.

(** A record whose CIK does not parse: no company is upserted by the
    company step, the diagnostic is logged, and the record then goes on
    to the store lookup like any other, with the value [Atoi] gave. *)
Lemma unparsable_cik_record (efis : EdgarFullIndexScraper)
  (lineStr cik companyName formType dateFiled filename : string)
  (more : list string) (w : W) :
  strings.Split lineStr "|" =
    cik :: companyName :: formType :: dateFiled :: filename :: more ->
  snd (strconv.Atoi cik) <> None ->
  let bucket := getBucket cik in
  let fileKey := getKey formType (year efis) (quarter efis) in
  fst (GetFilePath bucket fileKey w) = "" ->
  trace (parseRecord efis lineStr w) =
    LogError ["Failed to parse CIK to int: "; cik]
    :: recordLog cik companyName formType dateFiled filename
    :: CallGetFilePath bucket fileKey
    :: trace (GetXbrl filename bucket fileKey (stubFor efis cik formType)
                (snd (GetFilePath bucket fileKey w))).
Proof.
  intros Hsplit Herr bucket fileKey Hpath.
  rewrite (parseRecord_fields efis lineStr cik companyName formType
             dateFiled filename more w Hsplit).
  unfold afterCompany, companyEvents.
  destruct (strconv.Atoi cik) as [cikInt [e | ]]; [ | now elim Herr].
  fold bucket fileKey. rewrite Hpath. simpl.
  destruct (GetXbrl _ _ _ _ _); reflexivity.
Qed.

(** The download path never touches the company persister. *)
Lemma scanZip_no_company_call (files : list ZipFile) (bucket fileKey : string)
  (reportFile : ReportFile) (w : W) (e : event) :
  In e (trace (scanZip files bucket fileKey reportFile w)) ->
  isCompanyCall e = false.
Proof.
  induction files as [ | f rest IH]; simpl; [intros [] | ].
  destruct (isXbrlFileMatch (ZipFile_Name f)); [ | exact IH].
  unfold bind, emit, call, ret, panic.
  destruct (ZipFile_Open f) as [content | ].
  - destruct (StoreFile bucket fileKey content w) as [path w1].
    destruct (InsertUpdateReportFile _ w1) as [u w2]. simpl.
    intros [<- | [<- | [<- | [<- | []]]]]; reflexivity.
  - simpl. intros [<- | [<- | []]]; reflexivity.
Qed.

Lemma getXbrlFromZip_no_company_call (zipFileName bucket fileKey : string)
  (reportFile : ReportFile) (w : W) (e : event) :
  In e (trace (getXbrlFromZip zipFileName bucket fileKey reportFile w)) ->
  isCompanyCall e = false.
Proof.
  unfold getXbrlFromZip, bind, call, emit, ret.
  destruct (zip_OpenReader zipFileName w) as [[files | ] w1].
  - pose proof (scanZip_no_company_call files bucket fileKey reportFile w1 e)
      as Hscan.
    destruct (scanZip files bucket fileKey reportFile w1) as [[ | ] w2 tr | m w2 tr];
      simpl in *; intros [<- | Hin]; try reflexivity.
    + apply in_app_or in Hin. destruct Hin as [Hin | []]. now apply Hscan.
    + apply in_app_or in Hin. destruct Hin as [Hin | [<- | []]];
        [now apply Hscan | reflexivity].
    + now apply Hscan.
  - simpl. intros [<- | [<- | []]]; reflexivity.
Qed.

Lemma GetXbrl_no_company_call (edgarFilename bucket fileKey : string)
  (reportFile : ReportFile) (w : W) (e : event) :
  In e (trace (GetXbrl edgarFilename bucket fileKey reportFile w)) ->
  isCompanyCall e = false.
Proof.
  unfold GetXbrl.
  destruct (negb (strings.Contains edgarFilename ".txt")).
  { simpl. intros [<- | []]. reflexivity. }
  destruct (packageUrl edgarFilename) as [[baseName fullUrl] | ];
    [ | intros []].
  unfold bind, call, emit, ret.
  destruct (http_Get fullUrl w) as [[resp | ] w1].
  - destruct (time_Now_Unix w1) as [now w2].
    destruct (StoreFile _ _ _ w2) as [zipFilePath w3].
    destruct (negb (zipFilePath =? "")%string).
    + pose proof (getXbrlFromZip_no_company_call zipFilePath bucket fileKey
                    reportFile w3 e) as Hzip.
      destruct (getXbrlFromZip zipFilePath bucket fileKey reportFile w3);
        simpl in *; intros [<- | [<- | [<- | [<- | Hin]]]];
        try reflexivity; now apply Hzip.
    + simpl. intros [<- | [<- | [<- | [<- | []]]]]; reflexivity.
  - simpl. intros [<- | [<- | [<- | []]]]; reflexivity.
Qed.

(** The half of C1 that holds: a record whose CIK does not parse never
    reaches [InsertUpdateCompany]. *)
Lemma unparsable_cik_no_company (efis : EdgarFullIndexScraper)
  (lineStr cik companyName formType dateFiled filename : string)
  (more : list string) (w : W) (e : event) :
  strings.Split lineStr "|" =
    cik :: companyName :: formType :: dateFiled :: filename :: more ->
  snd (strconv.Atoi cik) <> None ->
  In e (trace (parseRecord efis lineStr w)) -> isCompanyCall e = false.
Proof.
  intros Hsplit Herr.
  rewrite (parseRecord_fields efis lineStr cik companyName formType
             dateFiled filename more w Hsplit).
  unfold afterCompany, companyEvents, recordLog.
  destruct (strconv.Atoi cik) as [cikInt [err | ]]; [ | now elim Herr].
  destruct (String.eqb _ "").
  - match goal with
    | |- context [GetXbrl ?f ?b ?k ?rf ?w0] =>
        pose proof (GetXbrl_no_company_call f b k rf w0 e) as Hx;
        destruct (GetXbrl f b k rf w0)
    end; simpl in *; intros [<- | [<- | [<- | Hin]]];
      try reflexivity; now apply Hx.
  - simpl. intros [<- | [<- | [<- | [<- | []]]]]; reflexivity.
Qed.

(** After a record that returns, the loop goes on with the next read. *)
Lemma parseLines_next_record (efis : EdgarFullIndexScraper)
  (lineStr : string) (rest : list ReadLineResult) (w w1 : W)
  (tr : list event) :
  parseRecord efis lineStr w = Returned tt w1 tr ->
  parseLines efis (mkRead (Some lineStr) false false :: rest) true w =
  match parseLines efis rest true w1 with
  | Returned a w2 tr2 => Returned a w2 (tr ++ tr2)%list
  | Panicked msg w2 tr2 => Panicked msg w2 (tr ++ tr2)%list
  end.
Proof. intros Hrec. simpl. unfold bind. now rewrite Hrec. Qed.

End Retrieval.

(* ===================================================================== *)
(** ** Runs on which the code and the specification part ways *)

Section Divergences.

Import filings io scraper scenario.

(** The Acme filing of the specification's scenario, on a fresh store:
    the company is upserted with the numeric CIK, the bucket keeps the
    CIK as written, and the instance document is extracted. *)
Example acme_filing_acquired :
  let o := ParseIndexFile efis [rd "Full index"; rd "-----------"; rd acmeLine]
             online in
  returns o = true /\
  mem.companies (world o) = [mkCompany 12345 "Acme Corp"] /\
  mem.reportFiles (world o) =
    [mkReportFile 12345 2020 1 "/tmp/CIK_0000012345/Y2020Q1FT10-K" "10-K"
       false].
Proof. vm_compute. repeat split. Qed.

(** C1. A line whose CIK field is ["12345X"] does not parse as an
    integer.  The record is not skipped: after the diagnostic the store
    is consulted, the package is fetched and extracted, and a report
    file with CIK 0 is persisted.  Only the company upsert is left
    out. *)
Theorem unparsable_cik_is_still_fetched :
  let line := "12345X|Acme Corp|10-K|2020-03-01|" ++ acmeFilename in
  let o := ParseIndexFile efis [rd "Full index"; rd "-----------"; rd line]
             online in
  fst (strconv.Atoi "12345X") = 0 /\
  snd (strconv.Atoi "12345X") = Some strconv.ErrSyntax /\
  returns o = true /\
  trace o =
    [LogError ["Failed to parse CIK to int: "; "12345X"];
     recordLog "12345X" "Acme Corp" "10-K" "2020-03-01" acmeFilename;
     CallGetFilePath "CIK_12345X" "Y2020Q1FT10-K";
     LogPrintln ["Getting xbrl zip from "; acmeUrl];
     CallHttpGet acmeUrl;
     CallTimeNow;
     CallStoreFile "CIK_12345X" "16000000000000012345-20-000012-xbrl.zip"
       acmeZip;
     CallZipOpenReader
       "/tmp/CIK_12345X/16000000000000012345-20-000012-xbrl.zip";
     LogPrintln ["Found zipped file: "; "acme-20191231.xml"];
     CallZipFileOpen "acme-20191231.xml";
     CallStoreFile "CIK_12345X" "Y2020Q1FT10-K" "<xbrl/>";
     CallInsertUpdateReportFile
       (mkReportFile 0 2020 1 "/tmp/CIK_12345X/Y2020Q1FT10-K" "10-K" false)] /\
  mem.companies (world o) = [] /\
  mem.reportFiles (world o) =
    [mkReportFile 0 2020 1 "/tmp/CIK_12345X/Y2020Q1FT10-K" "10-K" false].
Proof. vm_compute. repeat split. Qed.

(** C2. A line of the list with fewer than five fields is not a
    recoverable row: [elements[1]] is out of range, the goroutine
    panics, and the well-formed Acme line after it is never parsed. *)
Theorem short_row_aborts_the_run :
  let reads :=
    [rd "Full index"; rd "-----------"; rd "see next page"; rd acmeLine] in
  strings.Split "see next page" "|" = ["see next page"] /\
  ParseIndexFile efis reads online =
    Panicked "index out of range" online [].
Proof. vm_compute. split; reflexivity. Qed.

(** C3. A package fetch that is answered 404 is not treated as a
    failure: the error page is written to the blob store and the
    archive reader is run on it.  When a non-200 answer carries an
    archive, the report file is persisted as well. *)
Theorem non_200_package_is_stored :
  let o404 :=
    GetXbrl acmeFilename "CIK_0000012345" "Y2020Q1FT10-K" (stub 12345)
      notFound in
  let o203 :=
    GetXbrl acmeFilename "CIK_0000012345" "Y2020Q1FT10-K" (stub 12345)
      nonAuthoritative in
  trace o404 =
    [LogPrintln ["Getting xbrl zip from "; acmeUrl];
     CallHttpGet acmeUrl;
     CallTimeNow;
     CallStoreFile "CIK_0000012345"
       "16000000000000012345-20-000012-xbrl.zip" "<html>Not Found</html>";
     CallZipOpenReader
       "/tmp/CIK_0000012345/16000000000000012345-20-000012-xbrl.zip";
     LogError
       ["Failed to open zip: ";
        "/tmp/CIK_0000012345/16000000000000012345-20-000012-xbrl.zip"]] /\
  mem.blobs (world o404) =
    [("CIK_0000012345", "16000000000000012345-20-000012-xbrl.zip",
      "<html>Not Found</html>")] /\
  mem.reportFiles (world o203) =
    [mkReportFile 12345 2020 1 "/tmp/CIK_0000012345/Y2020Q1FT10-K" "10-K"
       false].
Proof. vm_compute. repeat split. Qed.

(** C4. For the filename [edgar/data/99/text-2020-1.txt] the code
    fetches [.../ext20201/ext-2020-1-xbrl.zip]: [strings.Trim] with the
    cutset [".txt"] also eats the leading [t] of the base name, where
    the specification strips the suffix only.  A filename with fewer
    than four components that contains [.txt] panics. *)
Theorem trim_cutset_changes_the_url :
  packageUrl "edgar/data/99/text-2020-1.txt" =
    Some ("ext-2020-1",
          "http://www.sec.gov/Archives/edgar/data/99/ext20201/ext-2020-1-xbrl.zip") /\
  spec.packageUrl "edgar/data/99/text-2020-1.txt" =
    Some "http://www.sec.gov/Archives/edgar/data/99/text20201/text-2020-1-xbrl.zip" /\
  trace (GetXbrl "edgar/data/99/text-2020-1.txt" "CIK_99" "Y2020Q1FT10-K"
           (stub 99) online) =
    [LogPrintln
       ["Getting xbrl zip from ";
        "http://www.sec.gov/Archives/edgar/data/99/ext20201/ext-2020-1-xbrl.zip"];
     CallHttpGet
       "http://www.sec.gov/Archives/edgar/data/99/ext20201/ext-2020-1-xbrl.zip";
     LogError
       ["Failed get to: ";
        "http://www.sec.gov/Archives/edgar/data/99/ext20201/ext-2020-1-xbrl.zip"]] /\
  GetXbrl "edgar/0000012345-20-000012.txt" "CIK_99" "Y2020Q1FT10-K" (stub 99)
    online = Panicked "index out of range" online [].
Proof. vm_compute. repeat split. Qed.

(** C5. The entry [exhibit-99_xml.txt] is not of the shape
    [[a-z0-9]+-[0-9]+\.xml], neither as a whole nor in any part, yet
    [isXbrlFileMatch] accepts it, because the dot of the pattern stands
    for any character.  The extractor takes it for the instance
    document and never reaches [acme-20191231.xml]. *)
Theorem unescaped_dot_selects_an_exhibit :
  let o :=
    getXbrlFromZip "/tmp/CIK_0000012345/package.zip" "CIK_0000012345"
      "Y2020Q1FT10-K" (stub 12345) withExhibit in
  spec.hasInstanceShape "exhibit-99_xml.txt" = false /\
  spec.containsInstanceShape "exhibit-99_xml.txt" = false /\
  isXbrlFileMatch "exhibit-99_xml.txt" = true /\
  trace o =
    [CallZipOpenReader "/tmp/CIK_0000012345/package.zip";
     LogPrintln ["Found zipped file: "; "exhibit-99_xml.txt"];
     CallZipFileOpen "exhibit-99_xml.txt";
     CallStoreFile "CIK_0000012345" "Y2020Q1FT10-K" "notes";
     CallInsertUpdateReportFile
       (mkReportFile 12345 2020 1 "/tmp/CIK_0000012345/Y2020Q1FT10-K"
          "10-K" false)].
Proof. vm_compute. repeat split. Qed.

End Divergences.

(* ===================================================================== *)
(** ** The pattern of the code accepts whatever the pattern of the
    specification accepts *)

Section Patterns.

Import regexp.

Lemma below_nullable (r s : regex) :
  below r s -> nullable r = true -> nullable s = true.
Proof.
  induction 1; simpl; intros Hn; try congruence.
  - apply orb_true_iff in Hn. apply orb_true_iff. tauto.
  - apply orb_true_iff. auto.
  - apply orb_true_iff. auto.
  - apply andb_true_iff in Hn. apply andb_true_iff. tauto.
Qed.

Lemma below_deriv (c : N) (r s : regex) :
  below r s -> below (deriv c r) (deriv c s).
Proof.
  induction 1; simpl.
  - apply below_refl.
  - apply below_void.
  - destruct (N.eqb_spec c (code c0)) as [-> | Hne].
    + rewrite H. apply below_refl.
    + apply below_void.
  - now apply below_alt.
  - now apply below_alt_l.
  - now apply below_alt_r.
  - destruct (nullable r1) eqn:Hr1.
    + rewrite (below_nullable r1 s1 H Hr1).
      apply below_alt; [now apply below_cat | assumption].
    + destruct (nullable s1).
      * apply below_alt_l. now apply below_cat.
      * now apply below_cat.
  - apply below_cat; [assumption | now apply below_star].
Qed.

Lemma below_matchAll (l : list N) :
  forall r s, below r s -> matchAll r l = true -> matchAll s l = true.
Proof.
  induction l as [ | c t IH]; simpl; intros r s Hrs.
  - now apply below_nullable.
  - apply IH. now apply below_deriv.
Qed.

Lemma below_matchPrefix (l : list N) :
  forall r s, below r s ->
    matchPrefix r l = true -> matchPrefix s l = true.
Proof.
  induction l as [ | c t IH]; simpl; intros r s Hrs Hm;
    apply orb_true_iff in Hm; apply orb_true_iff.
  - destruct Hm as [Hm | Hm]; [left | discriminate].
    now apply (below_nullable r s).
  - destruct Hm as [Hm | Hm].
    + left. now apply (below_nullable r s).
    + right. apply (IH (deriv c r)); [now apply below_deriv | assumption].
Qed.

Lemma below_search (r s : regex) (l : list N) :
  below r s -> search r l = true -> search s l = true.
Proof.
  intros Hrs. induction l as [ | c t IH]; cbn [search]; intros Hm;
    apply orb_true_iff in Hm; apply orb_true_iff;
    destruct Hm as [Hm | Hm].
  - left. now apply (below_matchPrefix [] r s).
  - discriminate.
  - left. now apply (below_matchPrefix (c :: t) r s).
  - right. now apply IH.
Qed.

Lemma matchAll_matchPrefix (l : list N) :
  forall r, matchAll r l = true -> matchPrefix r l = true.
Proof.
  induction l as [ | c t IH]; simpl; intros r Hm; apply orb_true_iff.
  - now left.
  - right. now apply IH.
Qed.

Lemma matchPrefix_search (r : regex) (l : list N) :
  matchPrefix r l = true -> search r l = true.
Proof.
  destruct l; cbn [search]; intros Hm; apply orb_true_iff; now left.
Qed.

Lemma instancePattern_below_xbrlPattern :
  below spec.instancePattern scraper.xbrlPattern.
Proof.
  unfold spec.instancePattern, scraper.xbrlPattern.
  repeat (apply below_cat; [apply below_refl | ]).
  simpl. apply below_cat; [ | apply below_refl].
  now apply below_dot.
Qed.

(** Every name that contains a word of the specification's pattern is
    accepted by [isXbrlFileMatch]: the unescaped dot only widens what is
    accepted. *)
Lemma spec_shape_is_accepted (name : string) :
  spec.containsInstanceShape name = true ->
  scraper.isXbrlFileMatch name = true.
Proof.
  unfold spec.containsInstanceShape, scraper.isXbrlFileMatch, MatchString.
  apply below_search, instancePattern_below_xbrlPattern.
Qed.

Lemma whole_spec_shape_is_accepted (name : string) :
  spec.hasInstanceShape name = true -> scraper.isXbrlFileMatch name = true.
Proof.
  intros H. apply spec_shape_is_accepted.
  unfold spec.containsInstanceShape, MatchString.
  now apply matchPrefix_search, matchAll_matchPrefix.
Qed.

Example instance_document_accepted :
  scraper.isXbrlFileMatch "acme-20191231.xml" = true.
Proof. reflexivity. Qed.

Example linkbase_rejected :
  scraper.isXbrlFileMatch "acme-20191231_cal.xml" = false.
Proof. reflexivity. Qed.

Example uppercase_rejected :
  scraper.isXbrlFileMatch "ACME-20191231.xml" = false.
Proof. reflexivity. Qed.

Example search_is_not_anchored :
  scraper.isXbrlFileMatch "R/acme-20191231.xml.bak" = true.
Proof. reflexivity. Qed.

(** The dot takes one character, of however many bytes: here the two
    bytes of U+00E9. *)
Example dot_takes_a_two_byte_character :
  utf8.decode (String "195" (String "169" "")) = [233%N] /\
  scraper.isXbrlFileMatch ("a-1" ++ String "195" (String "169" "xml")) = true.
Proof. split; reflexivity. Qed.

(** A byte that starts no character is the character U+FFFD, which the
    dot takes too; two of them are two characters. *)
Example dot_takes_a_stray_byte :
  scraper.isXbrlFileMatch ("a-1" ++ String "169" "xml") = true /\
  scraper.isXbrlFileMatch ("a-1" ++ String "169" (String "169" "xml")) = false.
Proof. split; reflexivity. Qed.

End Patterns.

(* ===================================================================== *)
(** ** Where [strings.Trim] does strip exactly the suffix *)

Section TrimFacts.

Import strings.

Lemma append_assoc (a b c : string) : (a ++ b) ++ c = a ++ (b ++ c).
Proof. induction a as [ | x a IH]; simpl; [reflexivity | now rewrite IH]. Qed.

Lemma append_nil_r (a : string) : a ++ "" = a.
Proof. induction a as [ | x a IH]; simpl; [reflexivity | now rewrite IH]. Qed.

Lemma length_append (a b : string) :
  String.length (a ++ b) = (String.length a + String.length b)%nat.
Proof. induction a as [ | x a IH]; simpl; [reflexivity | now rewrite IH]. Qed.

Lemma revOnto_append (s acc : string) : revOnto s acc = reverse s ++ acc.
Proof.
  unfold reverse. revert acc.
  induction s as [ | c t IH]; intros acc; simpl; [reflexivity | ].
  rewrite (IH (String c acc)), (IH (String c "")), append_assoc.
  reflexivity.
Qed.

Lemma reverse_cons (c : ascii) (t : string) :
  reverse (String c t) = reverse t ++ String c "".
Proof. unfold reverse at 1. simpl. apply revOnto_append. Qed.

Lemma reverse_append (a b : string) :
  reverse (a ++ b) = reverse b ++ reverse a.
Proof.
  induction a as [ | c a IH]; simpl.
  - now rewrite append_nil_r.
  - now rewrite !reverse_cons, IH, append_assoc.
Qed.

Lemma reverse_involutive (s : string) : reverse (reverse s) = s.
Proof.
  induction s as [ | c t IH]; [reflexivity | ].
  now rewrite reverse_cons, reverse_append, IH.
Qed.

Lemma TrimSuffix_append (b suffix : string) :
  TrimSuffix (b ++ suffix) suffix = b.
Proof.
  induction b as [ | c t IH].
  - simpl. destruct suffix; simpl.
    + reflexivity.
    + now rewrite Ascii.eqb_refl, String.eqb_refl.
  - change (TrimSuffix (String c t ++ suffix) suffix)
      with (if String.eqb (String c (t ++ suffix)) suffix then ""
            else String c (TrimSuffix (t ++ suffix) suffix)).
    destruct (String.eqb_spec (String c (t ++ suffix)) suffix) as [E | _].
    + apply (f_equal String.length) in E. simpl in E.
      rewrite length_append in E. lia.
    + now rewrite IH.
Qed.

Lemma TrimLeft_drop (c : ascii) (t cutset : string) :
  inCutset c cutset = true ->
  TrimLeft (String c t) cutset = TrimLeft t cutset.
Proof. intros H. cbn [TrimLeft]. now rewrite H. Qed.

Lemma TrimLeft_stop (c : ascii) (t cutset : string) :
  inCutset c cutset = false ->
  TrimLeft (String c t) cutset = String c t.
Proof. intros H. cbn [TrimLeft]. now rewrite H. Qed.

(** On a base name with clean ends, trimming the cutset [".txt"] off
    [basename.txt] gives back the base name, as stripping the suffix
    does. *)
Lemma Trim_txt_cleanEnds (basename : string) :
  spec.cleanEnds basename = true ->
  Trim (basename ++ ".txt") ".txt" = basename.
Proof.
  unfold spec.cleanEnds.
  destruct basename as [ | first t] eqn:Hb; [discriminate | ].
  rewrite <- Hb.
  destruct (reverse basename) as [ | last r] eqn:Hrev; [discriminate | ].
  intros Hends. apply andb_true_iff in Hends. destruct Hends as [Hf Hl].
  apply negb_true_iff in Hf. apply negb_true_iff in Hl.
  unfold Trim.
  assert (Hleft : TrimLeft (basename ++ ".txt") ".txt" = basename ++ ".txt").
  { rewrite Hb. cbn [append TrimLeft]. now rewrite Hf. }
  rewrite Hleft. unfold TrimRight.
  rewrite reverse_append, Hrev.
  change (reverse ".txt") with "txt.". cbn [append].
  rewrite 4 TrimLeft_drop by reflexivity.
  rewrite (TrimLeft_stop last r ".txt" Hl).
  rewrite <- Hrev. apply reverse_involutive.
Qed.

(** C4, where it holds: when the 4th component is [basename.txt] and the
    base name has clean ends, the URL of the code is the URL of the
    specification. *)
Lemma packageUrl_agrees_on_clean_names
  (filename p0 p1 p2 basename : string) (rest : list string) :
  Split filename "/" = p0 :: p1 :: p2 :: (basename ++ ".txt") :: rest ->
  spec.cleanEnds basename = true ->
  let url :=
    "http://www.sec.gov/Archives/"
      ++ Join (p0 :: p1 :: p2
                 :: (ReplaceAll basename "-" "" ++ "/" ++ basename
                       ++ "-xbrl.zip") :: rest) "/" in
  scraper.packageUrl filename = Some (basename, url) /\
  spec.packageUrl filename = Some url.
Proof.
  intros Hsplit Hclean url.
  unfold scraper.packageUrl, spec.packageUrl. rewrite Hsplit.
  cbn [nth_error io.setIndex].
  rewrite (Trim_txt_cleanEnds basename Hclean), TrimSuffix_append.
  split; reflexivity.
Qed.

Example acme_accession_has_clean_ends :
  spec.cleanEnds "0000012345-20-000012" = true.
Proof. reflexivity. Qed.

End TrimFacts.

(* ===================================================================== *)
(** ** More on [filings]: diagnostics, periods and the name tables *)

Section FilingsMore.

Import filings.

(** When [IsValid] reports an error, its text names exactly the metrics
    that are zero: each of the nine names occurs in the text if and only
    if its field is zero. *)
Theorem IsValid_names_exactly_the_zero_fields (fr : FinancialReport)
  (m : string) :
  IsValid fr = Some m ->
  (strings.Contains m "Revenue," = true <-> Revenue fr = 0) /\
  (strings.Contains m "OperatingExpense," = true <-> OperatingExpense fr = 0) /\
  (strings.Contains m "NetIncome," = true <-> NetIncome fr = 0) /\
  (strings.Contains m "TotalAssets," = true <-> TotalAssets fr = 0) /\
  (strings.Contains m "TotalLiabilities," = true <-> TotalLiabilities fr = 0) /\
  (strings.Contains m "CurrentAssets," = true <-> CurrentAssets fr = 0) /\
  (strings.Contains m "CurrentLiabilities," = true
     <-> CurrentLiabilities fr = 0) /\
  (strings.Contains m "OperatingCash," = true <-> OperatingCash fr = 0) /\
  (strings.Contains m "CapitalExpenditures," = true
     <-> CapitalExpenditures fr = 0).
Proof.
  unfold IsValid, missing. cbv zeta.
  destruct (Z.eqb_spec (Revenue fr) 0);
  destruct (Z.eqb_spec (OperatingExpense fr) 0);
  destruct (Z.eqb_spec (NetIncome fr) 0);
  destruct (Z.eqb_spec (TotalAssets fr) 0);
  destruct (Z.eqb_spec (TotalLiabilities fr) 0);
  destruct (Z.eqb_spec (CurrentAssets fr) 0);
  destruct (Z.eqb_spec (CurrentLiabilities fr) 0);
  destruct (Z.eqb_spec (OperatingCash fr) 0);
  destruct (Z.eqb_spec (CapitalExpenditures fr) 0);
  cbn [append String.length Nat.ltb Nat.leb];
  intros Hm; try discriminate Hm;
  injection Hm as <-;
  repeat split; try exact e; try exact e0; intros; try reflexivity;
  try assumption; try contradiction; try discriminate.
Qed.

Lemma IsValid_names_exactly_the_zero_fields_witness :
  let fr := mkFinancialReport 320193 2012 3 100 0 20 50 200 40 120 30 0 in
  strings.Contains "OperatingExpense,CapitalExpenditures," "TotalAssets,"
    = true <-> TotalAssets fr = 0.
Proof.
  intros fr.
  exact (proj1 (proj2 (proj2 (proj2
    (IsValid_names_exactly_the_zero_fields fr
       "OperatingExpense,CapitalExpenditures," eq_refl))))).
Defined.

Lemma sub_one_in_range (a : Z) :
  Int64.min_int < a <= Int64.max_int -> Int64.sub a 1 = a - 1.
Proof.
  unfold Int64.min_int, Int64.max_int, Int64.sub, Int64.wrap. intros H.
  rewrite Z.mod_small; lia.
Qed.

(** Going back four quarters from a quarter in 1..4 lands on the same
    quarter of the year before. *)
Theorem four_quarters_back_is_a_year_back (frr : FinancialReportRaw) :
  Int64.min_int < Raw_Year frr <= Int64.max_int ->
  1 <= Raw_Quarter frr <= 4 ->
  GetPreviousQuarter (previousPeriod (previousPeriod (previousPeriod frr))) =
  (Raw_Year frr - 1, Raw_Quarter frr).
Proof.
  destruct frr as [cik y q raw]. cbn [Raw_Year Raw_Quarter].
  intros Hy Hq.
  assert (Hcases : q = 1 \/ q = 2 \/ q = 3 \/ q = 4) by lia.
  pose proof (sub_one_in_range y Hy) as Hsub.
  destruct Hcases as [-> | [-> | [-> | ->]]];
    unfold previousPeriod, GetPreviousQuarter;
    cbn [Raw_Year Raw_Quarter Raw_CIK RawFields fst snd Z.eqb Pos.eqb];
    repeat (rewrite ?Hsub;
            cbn [Raw_Year Raw_Quarter Raw_CIK RawFields fst snd Z.eqb Pos.eqb];
            change (Int64.sub 4 1) with 3;
            change (Int64.sub 3 1) with 2;
            change (Int64.sub 2 1) with 1);
    reflexivity.
Qed.

Lemma four_quarters_back_is_a_year_back_witness :
  GetPreviousQuarter
    (previousPeriod (previousPeriod (previousPeriod
       (mkFinancialReportRaw 320193 2013 2 [])))) = (2012, 2).
Proof.
  apply (four_quarters_back_is_a_year_back
           (mkFinancialReportRaw 320193 2013 2 []));
    unfold Int64.min_int, Int64.max_int; simpl; lia.
Defined.

(** [GetPreviousQuarter] does not check the quarter it is given: it
    answers a quarter in 1..4 exactly for the quarters 1..5, so quarter 5
    is taken for a quarter after the fourth, and any other quarter outside
    1..4 gives a quarter outside 1..4. *)
Theorem previous_quarter_valid_iff (frr : FinancialReportRaw) :
  Int64.in_range (Raw_Quarter frr) ->
  (1 <= snd (GetPreviousQuarter frr) <= 4 <-> 1 <= Raw_Quarter frr <= 5).
Proof.
  unfold Int64.in_range, Int64.min_int, Int64.max_int, GetPreviousQuarter.
  intros Hq.
  destruct (Z.eqb_spec (Raw_Quarter frr) 1) as [E | E]; cbn [snd].
  - lia.
  - unfold Int64.sub, Int64.wrap.
    destruct (Z.eq_dec (Raw_Quarter frr) (- 2 ^ 63)) as [Emin | Emin].
    + rewrite Emin. simpl. lia.
    + rewrite Z.mod_small by lia. lia.
Qed.

Lemma previous_quarter_valid_iff_witness :
  snd (GetPreviousQuarter (mkFinancialReportRaw 320193 2013 5 [])) = 4 /\
  ~ (1 <= snd (GetPreviousQuarter (mkFinancialReportRaw 320193 2013 0 []))
       <= 4).
Proof.
  split.
  - reflexivity.
  - intros H.
    assert (Hrange : Int64.in_range 0).
    { unfold Int64.in_range, Int64.min_int, Int64.max_int. lia. }
    pose proof (proj1 (previous_quarter_valid_iff
                         (mkFinancialReportRaw 320193 2013 0 []) Hrange) H)
      as Hq.
    cbn [Raw_Quarter] in Hq. lia.
Defined.

(** The name tables fit together in one direction only.  Every
    variable-period name is a raw field name, and every raw field name is
    used by some group of the mapping; but the mapping also names two
    tags that are not raw field names, [CostOfGoodsAndServicesSold] and
    [Liabilities].  Each of the nine metric fields has exactly one entry
    in the mapping. *)
Theorem name_tables_fit :
  (forall tag, In tag GetVariablePeriodFieldNames ->
               In tag GetInt64RawFieldNames) /\
  (forall tag, In tag GetInt64RawFieldNames -> In tag mappedTags) /\
  (forall tag, In tag mappedTags ->
               ~ In tag GetInt64RawFieldNames ->
               tag = "CostOfGoodsAndServicesSold" \/ tag = "Liabilities") /\
  ~ In "CostOfGoodsAndServicesSold" GetInt64RawFieldNames /\
  ~ In "Liabilities" GetInt64RawFieldNames /\
  NoDup (map fst GetRawToScreenableMapping) /\
  (forall field : MetricField, In field (map fst GetRawToScreenableMapping)).
Proof.
  repeat split.
  - intros tag H. simpl in H.
    repeat (destruct H as [<- | H]; [simpl; tauto | ]). destruct H.
  - intros tag H. simpl in H.
    repeat (destruct H as [<- | H]; [simpl; tauto | ]). destruct H.
  - intros tag H Hnot. simpl in H.
    repeat (destruct H as [<- | H];
            [first [now left | now right | exfalso; apply Hnot; simpl; tauto]
            | ]).
    destruct H.
  - simpl. intros H.
    repeat (destruct H as [H | H]; [discriminate H | ]). exact H.
  - simpl. intros H.
    repeat (destruct H as [H | H]; [discriminate H | ]). exact H.
  - simpl. repeat (constructor; [simpl; intuition discriminate | ]).
    constructor.
  - intros []; simpl; tauto.
Qed.

End FilingsMore.

(* ===================================================================== *)
(** ** The key deriver *)

Section KeyDeriver.

Import strings scraper.

Lemma inCutset_append (c : ascii) (a b : string) :
  inCutset c (a ++ b) = inCutset c a || inCutset c b.
Proof.
  induction a as [ | x a IH]; simpl; [reflexivity | ].
  now rewrite IH, orb_assoc.
Qed.

Lemma Contains_byte (s : string) (c : ascii) :
  Contains s (String c "") = inCutset c s.
Proof.
  induction s as [ | a t IH].
  - reflexivity.
  - change (Contains (String a t) (String c ""))
      with (HasPrefix (String a t) (String c "") || Contains t (String c "")).
    rewrite IH. cbn [HasPrefix inCutset].
    rewrite (Ascii.eqb_sym c a).
    destruct t; now rewrite andb_true_r.
Qed.

Lemma ReplaceAll_append (a b : string) (old : ascii) (new : string) :
  ReplaceAll (a ++ b) old new = ReplaceAll a old new ++ ReplaceAll b old new.
Proof.
  induction a as [ | x a IH]; simpl; [reflexivity | ].
  rewrite IH. destruct (Ascii.eqb x old); [ | reflexivity].
  now rewrite append_assoc.
Qed.

Lemma ReplaceAll_absent (s : string) (old : ascii) (new : string) :
  inCutset old s = false -> ReplaceAll s old new = s.
Proof.
  induction s as [ | x s IH]; simpl; [reflexivity | ].
  intros H. apply orb_false_iff in H. destruct H as [Hx Hs].
  rewrite Ascii.eqb_sym in Hx. rewrite Hx. now rewrite IH.
Qed.

Lemma ReplaceAll_clears (s : string) (old : ascii) (new : string) :
  inCutset old new = false -> inCutset old (ReplaceAll s old new) = false.
Proof.
  intros Hnew. induction s as [ | x s IH]; simpl; [reflexivity | ].
  destruct (Ascii.eqb x old) eqn:Hx.
  - now rewrite inCutset_append, Hnew, IH.
  - simpl. rewrite Ascii.eqb_sym, Hx. exact IH.
Qed.

Lemma digitChar_no_slash (n : Z) :
  Ascii.eqb "/" (strconv.digitChar (n mod 10)) = false.
Proof.
  pose proof (Z.mod_pos_bound n 10 ltac:(lia)) as Hb.
  assert (Hcases : n mod 10 = 0 \/ n mod 10 = 1 \/ n mod 10 = 2 \/
                   n mod 10 = 3 \/ n mod 10 = 4 \/ n mod 10 = 5 \/
                   n mod 10 = 6 \/ n mod 10 = 7 \/ n mod 10 = 8 \/
                   n mod 10 = 9) by lia.
  repeat (destruct Hcases as [-> | Hcases]; [reflexivity | ]).
  now rewrite Hcases.
Qed.

Lemma digits_no_slash (fuel : nat) :
  forall (n : Z) (acc : string),
    inCutset "/" acc = false ->
    inCutset "/" (strconv.digits fuel n acc) = false.
Proof.
  induction fuel as [ | k IH]; intros n acc Hacc; simpl; [exact Hacc | ].
  assert (Hstep : inCutset "/" (String (strconv.digitChar (n mod 10)) acc)
                  = false).
  { cbn [inCutset]. now rewrite digitChar_no_slash, Hacc. }
  destruct (n <? 10); [exact Hstep | now apply IH].
Qed.

Lemma Itoa_no_slash (i : Z) : inCutset "/" (strconv.Itoa i) = false.
Proof.
  unfold strconv.Itoa. destruct (i <? 0).
  - cbn [inCutset]. rewrite digits_no_slash; reflexivity.
  - now apply digits_no_slash.
Qed.

Lemma append_cancel_l (a b c : string) : a ++ b = a ++ c -> b = c.
Proof.
  induction a as [ | x a IH]; simpl; intros H; [exact H | ].
  injection H as H. now apply IH.
Qed.

Lemma getKey_unfolded (formType : string) (year quarter : Z) :
  getKey formType year quarter =
    "Y" ++ strconv.Itoa year ++ "Q" ++ strconv.Itoa quarter ++ "FT"
        ++ ReplaceAll formType "/" "_".
Proof.
  unfold getKey.
  rewrite !ReplaceAll_append.
  rewrite (ReplaceAll_absent (strconv.Itoa year)) by apply Itoa_no_slash.
  rewrite (ReplaceAll_absent (strconv.Itoa quarter)) by apply Itoa_no_slash.
  reflexivity.
Qed.

(** The key is ["Y" year "Q" quarter "FT" formType] in which only the
    form type is rewritten, every [/] of it becoming [_]; no key contains
    a [/]. *)
Theorem getKey_shape (formType : string) (year quarter : Z) :
  getKey formType year quarter =
    "Y" ++ strconv.Itoa year ++ "Q" ++ strconv.Itoa quarter ++ "FT"
        ++ ReplaceAll formType "/" "_" /\
  Contains (getKey formType year quarter) "/" = false.
Proof.
  split; [apply getKey_unfolded | ].
  rewrite Contains_byte. unfold getKey. now apply ReplaceAll_clears.
Qed.

(** Two records of one period share their place in the store, bucket and
    key, exactly when their CIK fields are the same string and their form
    types are equal once every [/] is read as [_]: [10-K/A] and [10-K_A]
    collide, and so do no others. *)
Theorem same_place_iff (cik1 cik2 formType1 formType2 : string)
  (year quarter : Z) :
  (getBucket cik1 = getBucket cik2 /\
   getKey formType1 year quarter = getKey formType2 year quarter) <->
  (cik1 = cik2 /\
   ReplaceAll formType1 "/" "_" = ReplaceAll formType2 "/" "_").
Proof.
  rewrite (getKey_unfolded formType1), (getKey_unfolded formType2).
  unfold getBucket. split.
  - intros [Hb Hk]. split.
    + now apply (append_cancel_l "CIK_").
    + apply (append_cancel_l "Y") in Hk.
      apply append_cancel_l in Hk. apply (append_cancel_l "Q") in Hk.
      apply append_cancel_l in Hk. now apply (append_cancel_l "FT") in Hk.
  - intros [-> ->]. split; reflexivity.
Qed.

End KeyDeriver.
(* ===================================================================== *)
(** ** The index: header, list and the fetch *)

Section IndexFile.

Import filings io scraper.

Context {W : Type}.
Context {persister : PersistCompany W}.
Context {reportPersister : PersistReportFiles W}.
Context {ts : TempStore W}.
Context {outside : Outside W}.

Lemma parseLines_list (efis : EdgarFullIndexScraper) (records : list string) :
  forall w : W,
    parseLines efis (map fullLine records) true w =
    parseRecords efis records w.
Proof.
  induction records as [ | l rest IH]; intros w; [reflexivity | ].
  cbn [map parseLines parseRecords fullLine isPrefix line readErr negb andb].
  unfold bind. destruct (parseRecord efis l w) as [u w1 t1 | msg w1 t1];
    [ | reflexivity].
  now rewrite IH.
Qed.

(** The two states of the parser.  Lines before the first line with a run
    of seven dashes are passed over, that line switches to the list and
    is itself not parsed, and every line after it is parsed as a record,
    in order, whatever it contains. *)
Theorem index_is_header_then_records (efis : EdgarFullIndexScraper)
  (header records : list string) (separator : string) (w : W) :
  (forall h, In h header -> strings.Contains h "-------" = false) ->
  strings.Contains separator "-------" = true ->
  ParseIndexFile efis (map fullLine (header ++ separator :: records)) w =
  parseRecords efis records w.
Proof.
  intros Hheader Hsep. unfold ParseIndexFile.
  induction header as [ | h rest IH].
  - cbn [app map parseLines fullLine isPrefix line readErr negb andb].
    rewrite Hsep. apply parseLines_list.
  - cbn [app map parseLines fullLine isPrefix line readErr negb andb].
    rewrite (Hheader h (or_introl eq_refl)).
    apply IH. intros h' Hh'. apply Hheader. now right.
Qed.

(** Without a separator line nothing is parsed: whatever the reads are,
    the parser returns in the world it started in, and all it has done is
    log the reads that were too long. *)
Theorem index_without_separator_calls_nothing (efis : EdgarFullIndexScraper)
  (reads : list ReadLineResult) (w : W) :
  (forall r l, In r reads -> isPrefix r = false -> line r = Some l ->
               strings.Contains l "-------" = false) ->
  exists tr,
    ParseIndexFile efis reads w = Returned tt w tr /\
    Forall (fun e => e = tooLongLog) tr.
Proof.
  unfold ParseIndexFile. induction reads as [ | r rest IH]; intros Hnone.
  - exists []. split; [reflexivity | constructor].
  - destruct IH as (tr & Hrest & Hlogs).
    { intros r' l Hin. apply Hnone. now right. }
    cbn [parseLines].
    destruct (isPrefix r) eqn:Hprefix.
    + unfold bind, emit. destruct (readErr r).
      * exists [tooLongLog]. split; [reflexivity | now repeat constructor].
      * rewrite Hrest. exists (tooLongLog :: tr).
        split; [reflexivity | now constructor].
    + destruct (line r) as [l | ] eqn:Hline.
      * rewrite (Hnone r l (or_introl eq_refl) Hprefix Hline).
        cbn [negb andb]. destruct (readErr r).
        -- exists []. split; [reflexivity | constructor].
        -- exists tr. now split.
      * destruct (readErr r).
        -- exists []. split; [reflexivity | constructor].
        -- exists tr. now split.
Qed.

(** Fields after the fifth are ignored: two lines that agree on their
    first five fields are processed alike. *)
Theorem fields_after_the_fifth_are_ignored (efis : EdgarFullIndexScraper)
  (line1 line2 cik companyName formType dateFiled filename : string)
  (more1 more2 : list string) (w : W) :
  strings.Split line1 "|" =
    cik :: companyName :: formType :: dateFiled :: filename :: more1 ->
  strings.Split line2 "|" =
    cik :: companyName :: formType :: dateFiled :: filename :: more2 ->
  parseRecord efis line1 w = parseRecord efis line2 w.
Proof.
  intros H1 H2.
  rewrite (parseRecord_fields efis line1 cik companyName formType dateFiled
             filename more1 w H1).
  rewrite (parseRecord_fields efis line2 cik companyName formType dateFiled
             filename more2 w H2).
  reflexivity.
Qed.

(** A record whose CIK parses upserts its company first, with the numeric
    CIK and the name as written, before the store is asked: the company
    is upserted on every sighting, cached or not. *)
Theorem company_is_upserted_first (efis : EdgarFullIndexScraper)
  (lineStr cik companyName formType dateFiled filename : string)
  (more : list string) (cikInt : Z) (w : W) :
  strings.Split lineStr "|" =
    cik :: companyName :: formType :: dateFiled :: filename :: more ->
  strconv.Atoi cik = (cikInt, None) ->
  exists tr,
    trace (parseRecord efis lineStr w) =
      CallInsertUpdateCompany (mkCompany cikInt companyName)
      :: recordLog cik companyName formType dateFiled filename
      :: CallGetFilePath (getBucket cik)
           (getKey formType (year efis) (quarter efis))
      :: tr.
Proof.
  intros Hsplit Hcik.
  rewrite (parseRecord_fields efis lineStr cik companyName formType dateFiled
             filename more w Hsplit).
  unfold companyEvents. rewrite Hcik.
  destruct (String.eqb _ "").
  - destruct (GetXbrl _ _ _ _ _) as [a w3 tr | msg w3 tr];
      exists tr; reflexivity.
  - eexists. reflexivity.
Qed.

(** A failed index fetch ends the run at once: after a GET error or an
    answer whose status is not 200, the index GET is the only call that
    was made, and nothing is parsed.  An answer with status 200 is parsed
    from its first line, in the world the GET left. *)
Theorem index_fetch_decides_the_run (efis : EdgarFullIndexScraper) (w : W) :
  let url := indexUrlOf efis in
  let w1 := snd (http_Get url w) in
  (fst (http_Get url w) = None ->
     ScrapeEdgarQuarterlyIndex efis w =
     Returned tt w1
       [startLog efis; CallHttpGet url;
        LogError ["Failed to retrieve index for url <"; url]]) /\
  (forall resp, fst (http_Get url w) = Some resp ->
     StatusCode resp <> 200 ->
     ScrapeEdgarQuarterlyIndex efis w =
     Returned tt w1
       [startLog efis; CallHttpGet url;
        LogError ["Received status code <"; Status resp; "> for url: "; url]]) /\
  (forall resp, fst (http_Get url w) = Some resp ->
     StatusCode resp = 200 ->
     trace (ScrapeEdgarQuarterlyIndex efis w) =
       startLog efis :: CallHttpGet url
       :: trace (ParseIndexFile efis (bufio_ReadLines (Body resp)) w1) /\
     world (ScrapeEdgarQuarterlyIndex efis w) =
       world (ParseIndexFile efis (bufio_ReadLines (Body resp)) w1)).
Proof.
  intros url w1. subst url w1.
  unfold ScrapeEdgarQuarterlyIndex, indexUrlOf, startLog, bind, emit, call.
  destruct (http_Get _ w) as [getResp w1]. cbn [fst snd].
  split; [ | split].
  - intros ->. reflexivity.
  - intros resp -> Hstatus. apply Z.eqb_neq in Hstatus. now rewrite Hstatus.
  - intros resp -> Hstatus. rewrite Hstatus. cbn [Z.eqb Pos.eqb negb].
    now destruct (ParseIndexFile _ _ w1).
Qed.

End IndexFile.
(* ===================================================================== *)
(** ** The package retriever *)

Section BaseName.

Import strings.

Lemma TrimLeft_head (s cutset : string) :
  TrimLeft s cutset = "" \/
  exists c t, TrimLeft s cutset = String c t /\ inCutset c cutset = false.
Proof.
  induction s as [ | x s IH]; cbn [TrimLeft]; [now left | ].
  destruct (inCutset x cutset) eqn:Hx; [exact IH | ].
  right. now exists x, s.
Qed.

Lemma TrimLeft_before_clean (r cutset : string) (c : ascii) :
  inCutset c cutset = false ->
  TrimLeft (r ++ String c "") cutset = TrimLeft r cutset ++ String c "".
Proof.
  intros Hc. induction r as [ | x r IH]; cbn [append TrimLeft].
  - now rewrite Hc.
  - destruct (inCutset x cutset); [exact IH | reflexivity].
Qed.

(** What [strings.Trim] leaves is empty, or begins and ends with a byte
    that is not in the cutset. *)
Lemma Trim_ends (s cutset : string) :
  Trim s cutset = "" \/
  exists first t last r,
    Trim s cutset = String first t /\ inCutset first cutset = false /\
    reverse (Trim s cutset) = String last r /\ inCutset last cutset = false.
Proof.
  unfold Trim, TrimRight.
  destruct (TrimLeft_head s cutset) as [-> | (c & t & -> & Hc)];
    [now left | right].
  rewrite reverse_cons, (TrimLeft_before_clean _ _ c Hc).
  rewrite reverse_append. change (reverse (String c "")) with (String c "").
  cbn [append]. exists c, (reverse (TrimLeft (reverse t) cutset)).
  rewrite reverse_cons, reverse_involutive.
  destruct (TrimLeft_head (reverse t) cutset) as [-> | (d & u & -> & Hd)].
  - exists c, "". repeat split; assumption.
  - exists d, (u ++ String c ""). repeat split; assumption.
Qed.

End BaseName.

Section Retriever.

Import filings io scraper.

Context {W : Type}.
Context {persister : PersistCompany W}.
Context {reportPersister : PersistReportFiles W}.
Context {ts : TempStore W}.
Context {outside : Outside W}.

(** The base name that the retriever derives never begins or ends with
    one of the bytes [.], [t], [x]: it is empty or has clean ends.  An
    accession name that does begin or end with such a byte is not the
    base name the retriever uses. *)
Theorem derived_base_name_has_clean_ends
  (edgarFilename baseName fullUrl : string) :
  packageUrl edgarFilename = Some (baseName, fullUrl) ->
  baseName = "" \/ spec.cleanEnds baseName = true.
Proof.
  unfold packageUrl.
  destruct (nth_error (strings.Split edgarFilename "/") 3) as [p3 | ];
    [ | discriminate].
  intros H. injection H as <- _.
  destruct (Trim_ends p3 ".txt") as [-> | (first & t & last & r & Hb & Hf & Hr & Hl)];
    [now left | right].
  unfold spec.cleanEnds. rewrite Hb in Hr |- *. rewrite Hr, Hf, Hl. reflexivity.
Qed.

(** When the 4th component is [basename.txt] and the base name has clean
    ends, the base name is recovered and the package URL is the archive
    root followed by the components, the 4th replaced by
    [<basename without dashes>/<basename>-xbrl.zip]. *)
Theorem packageUrl_of_clean_name
  (edgarFilename p0 p1 p2 basename : string) (rest : list string) :
  strings.Split edgarFilename "/" =
    p0 :: p1 :: p2 :: (basename ++ ".txt") :: rest ->
  spec.cleanEnds basename = true ->
  packageUrl edgarFilename =
    Some (basename,
          "http://www.sec.gov/Archives/"
            ++ strings.Join
                 (p0 :: p1 :: p2
                    :: (strings.ReplaceAll basename "-" "" ++ "/" ++ basename
                          ++ "-xbrl.zip") :: rest) "/") /\
  strings.Contains (strings.ReplaceAll basename "-" "") "-" = false.
Proof.
  intros Hsplit Hclean. split.
  - unfold packageUrl. rewrite Hsplit. cbn [nth_error setIndex].
    now rewrite (Trim_txt_cleanEnds basename Hclean).
  - rewrite Contains_byte. now apply ReplaceAll_clears.
Qed.

(** A filename without [.txt] is refused: the complaint is logged and
    nothing else happens. *)
Theorem filename_without_txt_is_refused
  (edgarFilename bucket fileKey : string) (reportFile : ReportFile) (w : W) :
  strings.Contains edgarFilename ".txt" = false ->
  GetXbrl edgarFilename bucket fileKey reportFile w =
  Returned tt w [LogError ["Unexpected file type: "; edgarFilename]].
Proof. intros H. unfold GetXbrl. now rewrite H. Qed.

(** A filename with [.txt] but fewer than four components stops the
    goroutine at [parts[3]], before anything is logged or fetched. *)
Theorem filename_with_few_components_panics
  (edgarFilename bucket fileKey : string) (reportFile : ReportFile) (w : W) :
  strings.Contains edgarFilename ".txt" = true ->
  (List.length (strings.Split edgarFilename "/") < 4)%nat ->
  GetXbrl edgarFilename bucket fileKey reportFile w =
  Panicked "index out of range" w [].
Proof.
  intros Htxt Hlen. unfold GetXbrl, packageUrl. rewrite Htxt. cbn [negb].
  destruct (strings.Split edgarFilename "/") as [ | e0 [ | e1 [ | e2 [ | e3 l]]]];
    simpl in Hlen; try lia; reflexivity.
Qed.

(** When the blob store answers the empty path for the downloaded
    package, the record ends there: the archive is never opened and no
    report file is persisted. *)
Theorem unstored_package_is_not_extracted
  (edgarFilename bucket fileKey baseName fullUrl : string)
  (resp : Response) (reportFile : ReportFile) (w : W) :
  strings.Contains edgarFilename ".txt" = true ->
  packageUrl edgarFilename = Some (baseName, fullUrl) ->
  fst (http_Get fullUrl w) = Some resp ->
  let w1 := snd (http_Get fullUrl w) in
  let name :=
    strconv.Itoa (fst (time_Now_Unix w1)) ++ baseName ++ XBRL_ZIP_SUFFIX in
  let stored := StoreFile bucket name (Body resp) (snd (time_Now_Unix w1)) in
  fst stored = "" ->
  GetXbrl edgarFilename bucket fileKey reportFile w =
  Returned tt (snd stored)
    [LogPrintln ["Getting xbrl zip from "; fullUrl];
     CallHttpGet fullUrl;
     CallTimeNow;
     CallStoreFile bucket name (Body resp)].
Proof.
  intros Htxt Hurl Hget w1 name stored Hstored. subst stored name w1.
  unfold GetXbrl. rewrite Htxt, Hurl.
  unfold bind, emit, call, ret. cbn [negb].
  destruct (http_Get fullUrl w) as [r w1]. cbn [fst snd] in *. subst r.
  destruct (time_Now_Unix w1) as [now w2]. cbn [fst snd] in *.
  destruct (StoreFile _ _ _ w2) as [zipFilePath w3]. cbn [fst snd] in *.
  subst zipFilePath. reflexivity.
Qed.

End Retriever.
(* ===================================================================== *)
(** ** The instance-document extractor *)

Section Extractor.

Import filings io scraper.

Context {W : Type}.
Context {persister : PersistCompany W}.
Context {reportPersister : PersistReportFiles W}.
Context {ts : TempStore W}.
Context {outside : Outside W}.

(** An archive that does not open is logged, and that is all. *)
Theorem unreadable_archive_is_logged (zipFileName bucket fileKey : string)
  (reportFile : ReportFile) (w : W) :
  fst (zip_OpenReader zipFileName w) = None ->
  getXbrlFromZip zipFileName bucket fileKey reportFile w =
  Returned tt (snd (zip_OpenReader zipFileName w))
    [CallZipOpenReader zipFileName;
     LogError ["Failed to open zip: "; zipFileName]].
Proof.
  intros Hopen. unfold getXbrlFromZip, bind, call, emit.
  destruct (zip_OpenReader zipFileName w) as [zr w1]. cbn [fst snd] in *.
  now subst zr.
Qed.

(** The first entry in archive order that matches is the instance
    document: its content is stored under the record's (bucket, key), the
    stub is persisted with the path the store answered and otherwise
    unchanged, and the entries after it are not opened. *)
Theorem first_match_is_extracted (before after : list ZipFile) (f : ZipFile)
  (content zipFileName bucket fileKey : string) (reportFile : ReportFile)
  (w : W) :
  fst (zip_OpenReader zipFileName w) = Some (before ++ f :: after)%list ->
  (forall g, In g before -> isXbrlFileMatch (ZipFile_Name g) = false) ->
  isXbrlFileMatch (ZipFile_Name f) = true ->
  ZipFile_Open f = Some content ->
  let w1 := snd (zip_OpenReader zipFileName w) in
  let stored := StoreFile bucket fileKey content w1 in
  let record := withFilepath reportFile (fst stored) in
  getXbrlFromZip zipFileName bucket fileKey reportFile w =
  Returned tt (snd (InsertUpdateReportFile record (snd stored)))
    [CallZipOpenReader zipFileName;
     LogPrintln ["Found zipped file: "; ZipFile_Name f];
     CallZipFileOpen (ZipFile_Name f);
     CallStoreFile bucket fileKey content;
     CallInsertUpdateReportFile record].
Proof.
  intros Hzip Hbefore Hmatch Hopen. cbv zeta.
  unfold getXbrlFromZip, bind, call.
  destruct (zip_OpenReader zipFileName w) as [zr w1]. cbn [fst snd] in *.
  subst zr.
  rewrite (scanZip_first_match before after f content bucket fileKey
             reportFile w1 Hbefore Hmatch Hopen).
  reflexivity.
Qed.

(** A matching entry that cannot be opened stops the goroutine: nothing
    is stored, no report file is persisted, and no later entry is tried,
    even one that matches and would open. *)
Theorem unopenable_match_panics (before after : list ZipFile) (f : ZipFile)
  (zipFileName bucket fileKey : string) (reportFile : ReportFile) (w : W) :
  fst (zip_OpenReader zipFileName w) = Some (before ++ f :: after)%list ->
  (forall g, In g before -> isXbrlFileMatch (ZipFile_Name g) = false) ->
  isXbrlFileMatch (ZipFile_Name f) = true ->
  ZipFile_Open f = None ->
  let o := getXbrlFromZip zipFileName bucket fileKey reportFile w in
  returns o = false /\
  world o = snd (zip_OpenReader zipFileName w) /\
  trace o =
    [CallZipOpenReader zipFileName;
     LogPrintln ["Found zipped file: "; ZipFile_Name f];
     CallZipFileOpen (ZipFile_Name f)].
Proof.
  intros Hzip Hbefore Hmatch Hopen. cbv zeta.
  unfold getXbrlFromZip, bind, call.
  destruct (zip_OpenReader zipFileName w) as [zr w1]. cbn [fst snd] in *.
  subst zr.
  assert (Hscan : scanZip (before ++ f :: after)%list bucket fileKey reportFile w1 =
            Panicked "invalid memory address or nil pointer dereference" w1
              [LogPrintln ["Found zipped file: "; ZipFile_Name f];
               CallZipFileOpen (ZipFile_Name f)]).
  { induction before as [ | g rest IH]; cbn [app scanZip].
    - rewrite Hmatch, Hopen. reflexivity.
    - rewrite (Hbefore g (or_introl eq_refl)).
      apply IH. intros h Hh. apply Hbefore. now right. }
  rewrite Hscan. repeat split.
Qed.

Lemma scanZip_few_calls (files : list ZipFile) (bucket fileKey : string)
  (reportFile : ReportFile) (w : W) :
  (List.length (filter isReportCall
             (trace (scanZip files bucket fileKey reportFile w))) <= 1)%nat /\
  (List.length (filter isStoreCall
             (trace (scanZip files bucket fileKey reportFile w))) <= 1)%nat.
Proof.
  induction files as [ | f rest IH]; cbn [scanZip].
  - split; simpl; lia.
  - destruct (isXbrlFileMatch (ZipFile_Name f)); [ | exact IH].
    unfold bind, emit, call, ret, panic.
    destruct (ZipFile_Open f) as [content | ].
    + destruct (StoreFile bucket fileKey content w) as [path w1].
      destruct (InsertUpdateReportFile _ w1) as [u w2].
      split; simpl; lia.
    + split; simpl; lia.
Qed.

(** Whatever the archive holds, one package gives at most one write of
    an instance document to the store and at most one report file. *)
Theorem at_most_one_report_per_archive (zipFileName bucket fileKey : string)
  (reportFile : ReportFile) (w : W) :
  let tr := trace (getXbrlFromZip zipFileName bucket fileKey reportFile w) in
  (List.length (filter isReportCall tr) <= 1)%nat /\
  (List.length (filter isStoreCall tr) <= 1)%nat.
Proof.
  cbv zeta. unfold getXbrlFromZip, bind, call, emit, ret.
  destruct (zip_OpenReader zipFileName w) as [[files | ] w1].
  - pose proof (scanZip_few_calls files bucket fileKey reportFile w1)
      as [Hr Hs].
    destruct (scanZip files bucket fileKey reportFile w1)
      as [[ | ] w2 tr | msg w2 tr];
      simpl in *; rewrite ?filter_app, ?length_app; simpl; split; lia.
  - split; simpl; lia.
Qed.

End Extractor.
(* ===================================================================== *)
(** ** What [isXbrlFileMatch] accepts *)

Section Matcher.

Import regexp.
Local Open Scope list_scope.

Lemma nullable_lang (r : regex) : nullable r = true <-> lang r [].
Proof.
  induction r; cbn [nullable lang].
  - split; [discriminate | tauto].
  - split; reflexivity.
  - split; discriminate.
  - split; [discriminate | intros (c & H & _); discriminate].
  - split; [discriminate | intros (c & H & _); discriminate].
  - rewrite orb_true_iff. tauto.
  - rewrite andb_true_iff, IHr1, IHr2. split.
    + intros [H1 H2]. now exists [], [].
    + intros (l1 & l2 & Heq & H1 & H2). symmetry in Heq.
      apply app_eq_nil in Heq. destruct Heq as [-> ->]. tauto.
  - split; [intros _; constructor | reflexivity].
Qed.

Lemma star_cons_inv (L : list N -> Prop) (c : N) (l : list N) :
  star L (c :: l) ->
  exists t1 t2, l = t1 ++ t2 /\ L (c :: t1) /\ star L t2.
Proof.
  intros H. remember (c :: l) as u eqn:Hu.
  induction H as [ | l1 l2 H1 H2 IH]; [discriminate | ].
  destruct l1 as [ | c1 t1].
  - apply IH. exact Hu.
  - cbn [app] in Hu. injection Hu as -> <-. now exists t1, l2.
Qed.

Lemma deriv_lang (c : N) (r : regex) :
  forall l, lang (deriv c r) l <-> lang r (c :: l).
Proof.
  induction r; intros l; cbn [deriv lang].
  - tauto.
  - split; [tauto | discriminate].
  - destruct (N.eqb_spec c (code c0)) as [-> | Hne]; cbn [lang].
    + split; [now intros -> | intros H; now injection H].
    + split; [tauto | intros H; injection H as H _; contradiction].
  - destruct (N.leb (code lo) c && N.leb c (code hi))%bool eqn:Hr;
      cbn [lang].
    + apply andb_true_iff in Hr. destruct Hr as [H1 H2].
      apply N.leb_le in H1. apply N.leb_le in H2. split.
      * intros ->. now exists c.
      * intros (d & H & _). now injection H.
    + split; [tauto | ].
      intros (d & H & H1 & H2). injection H as ->.
      apply N.leb_le in H1. apply N.leb_le in H2.
      now rewrite H1, H2 in Hr.
  - destruct (N.eqb_spec c lineFeed) as [-> | Hne]; cbn [lang].
    + split; [tauto | ]. intros (d & H & Hd). injection H as <-.
      now apply Hd.
    + split.
      * intros ->. now exists c.
      * intros (d & H & _). now injection H.
  - rewrite IHr1, IHr2. tauto.
  - assert (Hcat : (exists t1 t2, l = t1 ++ t2 /\
                                  lang r1 (c :: t1) /\ lang r2 t2) \/
                   (lang r1 [] /\ lang r2 (c :: l)) <->
                   exists l1 l2, c :: l = l1 ++ l2 /\
                                 lang r1 l1 /\ lang r2 l2).
    { split.
      - intros [(t1 & t2 & -> & H1 & H2) | [H1 H2]].
        + now exists (c :: t1), t2.
        + now exists [], (c :: l).
      - intros (l1 & l2 & Heq & H1 & H2). destruct l1 as [ | c1 t1].
        + right. cbn [app] in Heq. subst l2. tauto.
        + left. cbn [app] in Heq. injection Heq as <- ->.
          now exists t1, l2. }
    rewrite <- Hcat. destruct (nullable r1) eqn:Hn; cbn [lang].
    + apply nullable_lang in Hn. rewrite IHr2. split.
      * intros [(t1 & t2 & Heq & H1 & H2) | H2].
        -- left. exists t1, t2. now rewrite <- IHr1.
        -- now right.
      * intros [(t1 & t2 & Heq & H1 & H2) | [_ H2]].
        -- left. exists t1, t2. now rewrite IHr1.
        -- now right.
    + split.
      * intros (t1 & t2 & Heq & H1 & H2). left. exists t1, t2.
        now rewrite <- IHr1.
      * intros [(t1 & t2 & Heq & H1 & H2) | [H1 _]].
        -- exists t1, t2. now rewrite IHr1.
        -- apply nullable_lang in H1. congruence.
  - split.
    + intros (t1 & t2 & -> & H1 & H2). apply IHr in H1.
      now apply (star_app (lang r) (c :: t1) t2).
    + intros H. apply star_cons_inv in H.
      destruct H as (t1 & t2 & Heq & H1 & H2).
      exists t1, t2. now rewrite IHr.
Qed.

Lemma matchPrefix_lang (l : list N) :
  forall r, matchPrefix r l = true <->
            exists p q, l = p ++ q /\ lang r p.
Proof.
  induction l as [ | c t IH]; intros r; cbn [matchPrefix];
    rewrite orb_true_iff, nullable_lang.
  - split.
    + intros [H | H]; [now exists [], [] | discriminate].
    + intros (p & q & Heq & H). symmetry in Heq.
      apply app_eq_nil in Heq. destruct Heq as [-> _]. now left.
  - rewrite IH. split.
    + intros [H | (p & q & -> & H)].
      * now exists [], (c :: t).
      * exists (c :: p), q. now rewrite <- deriv_lang.
    + intros (p & q & Heq & H). destruct p as [ | c1 p].
      * now left.
      * right. cbn [app] in Heq. injection Heq as <- ->.
        exists p, q. now rewrite deriv_lang.
Qed.

Lemma search_lang (r : regex) (l : list N) :
  search r l = true <->
  exists a p q, l = a ++ p ++ q /\ lang r p.
Proof.
  induction l as [ | c t IH]; cbn [search];
    rewrite orb_true_iff, matchPrefix_lang.
  - split.
    + intros [(p & q & Heq & H) | H]; [now exists [], p, q | discriminate].
    + intros (a & p & q & Heq & H). left. symmetry in Heq.
      apply app_eq_nil in Heq. destruct Heq as [-> Heq].
      now exists p, q.
  - rewrite IH. split.
    + intros [(p & q & Heq & H) | (a & p & q & -> & H)].
      * now exists [], p, q.
      * now exists (c :: a), p, q.
    + intros (a & p & q & Heq & H). destruct a as [ | c1 a].
      * left. now exists p, q.
      * right. cbn [app] in Heq. injection Heq as <- ->.
        now exists a, p, q.
Qed.

(** A character class and its iterations. *)
Lemma star_class (K : regex) (p : N -> bool) :
  (forall l, lang K l <-> exists c, l = [c] /\ p c = true) ->
  forall l, star (lang K) l <-> forallb p l = true.
Proof.
  intros HK l. split.
  - induction 1 as [ | l1 l2 H1 _ IH]; [reflexivity | ].
    apply HK in H1. destruct H1 as (c & -> & Hc).
    cbn [app forallb]. now rewrite Hc.
  - induction l as [ | c t IH]; cbn [forallb]; intros H; [constructor | ].
    apply andb_true_iff in H. destruct H as [Hc Ht].
    apply (star_app (lang K) [c] t); [ | now apply IH].
    apply HK. now exists c.
Qed.

Lemma plus_class (K : regex) (p : N -> bool) :
  (forall l, lang K l <-> exists c, l = [c] /\ p c = true) ->
  forall l, lang (Plus K) l <-> l <> [] /\ forallb p l = true.
Proof.
  intros HK l. unfold Plus. cbn [lang]. split.
  - intros (l1 & l2 & -> & H1 & H2).
    apply HK in H1. destruct H1 as (c & -> & Hc).
    apply (star_class K p HK) in H2.
    cbn [app forallb]. rewrite Hc, H2. split; [discriminate | reflexivity].
  - intros [Hne H]. destruct l as [ | c t]; [contradiction | ].
    cbn [forallb] in H. apply andb_true_iff in H. destruct H as [Hc Ht].
    exists [c], t. repeat split.
    + apply HK. now exists c.
    + now apply (star_class K p HK).
Qed.

Lemma digit_class (l : list N) :
  lang (Range "0" "9") l <-> exists c, l = [c] /\ isDigitRune c = true.
Proof.
  cbn [lang]. unfold isDigitRune. split; intros (c & -> & H); exists c;
    (split; [reflexivity | ]).
  - apply andb_true_iff. now rewrite !N.leb_le.
  - apply andb_true_iff in H. now rewrite !N.leb_le in H.
Qed.

Lemma lower_or_digit_class (l : list N) :
  lang (Alt (Range "a" "z") (Range "0" "9")) l <->
  exists c, l = [c] /\ isLowerOrDigitRune c = true.
Proof.
  cbn [lang]. unfold isLowerOrDigitRune, isLowerRune, isDigitRune. split.
  - intros [(c & -> & H) | (c & -> & H)]; exists c;
      (split; [reflexivity | ]); apply orb_true_iff; [left | right];
      apply andb_true_iff; now rewrite !N.leb_le.
  - intros (c & -> & H). apply orb_true_iff in H.
    destruct H as [H | H]; [left | right]; exists c;
      (split; [reflexivity | ]);
      apply andb_true_iff in H; now rewrite !N.leb_le in H.
Qed.

Lemma Lit_lang (w : string) (l : list N) :
  lang (Lit w) l <-> l = utf8.ofAscii w.
Proof.
  revert l. induction w as [ | c t IH]; intros l; cbn [Lit lang utf8.ofAscii].
  - tauto.
  - split.
    + intros (l1 & l2 & -> & -> & H2). apply IH in H2. now subst l2.
    + intros ->. exists [code c], (utf8.ofAscii t). repeat split.
      now apply IH.
Qed.

(** The words of the pattern of [isXbrlFileMatch]. *)
Lemma xbrlPattern_lang (p : list N) :
  lang scraper.xbrlPattern p <->
  exists letters digits c,
    p = letters ++ [code "-"] ++ digits ++ c :: utf8.ofAscii "xml" /\
    letters <> [] /\ forallb isLowerOrDigitRune letters = true /\
    digits <> [] /\ forallb isDigitRune digits = true /\
    c <> lineFeed.
Proof.
  unfold scraper.xbrlPattern. cbn [lang]. split.
  - intros (letters & l2 & -> & Hl & dash & l3 & -> & -> &
            digits & l4 & -> & Hd & dot & l5 & -> & (c & -> & Hc) & Hx).
    apply Lit_lang in Hx. subst l5.
    apply (plus_class _ _ lower_or_digit_class) in Hl.
    apply (plus_class _ _ digit_class) in Hd.
    exists letters, digits, c. tauto.
  - intros (letters & digits & c & -> & Hl1 & Hl2 & Hd1 & Hd2 & Hc).
    exists letters, ([code "-"] ++ digits ++ c :: utf8.ofAscii "xml").
    split; [reflexivity | ]. split.
    { apply (plus_class _ _ lower_or_digit_class). tauto. }
    exists [code "-"], (digits ++ c :: utf8.ofAscii "xml").
    split; [reflexivity | ]. split; [reflexivity | ].
    exists digits, (c :: utf8.ofAscii "xml").
    split; [reflexivity | ]. split.
    { apply (plus_class _ _ digit_class). tauto. }
    exists [c], (utf8.ofAscii "xml").
    split; [reflexivity | ]. split; [now exists c | ].
    now apply Lit_lang.
Qed.

(** A name of bytes below [0x80] has its bytes for characters. *)
Lemma decode_ofAscii (s : string) :
  allBytes (fun c => N.ltb (utf8.byte c) 128) s = true ->
  utf8.decode s = utf8.ofAscii s.
Proof.
  induction s as [ | c t IH]; cbn [allBytes utf8.decode utf8.ofAscii];
    [reflexivity | ].
  intros H. apply andb_true_iff in H. destruct H as [Hc Ht].
  rewrite Hc. now rewrite IH.
Qed.

(** [isXbrlFileMatch] accepts a name exactly when the characters of the
    name contain, anywhere, one or more lower-case letters or digits, a
    dash, one or more digits, one more character that is not a line feed
    (a dot is not required; a character of several bytes will do), and
    [xml].  Nothing is required of what comes before or after. *)
Theorem isXbrlFileMatch_iff (fileName : string) :
  scraper.isXbrlFileMatch fileName = true <->
  exists before letters digits c after,
    utf8.decode fileName =
      before
      ++ (letters ++ [code "-"] ++ digits ++ c :: utf8.ofAscii "xml")
      ++ after /\
    letters <> [] /\ forallb isLowerOrDigitRune letters = true /\
    digits <> [] /\ forallb isDigitRune digits = true /\
    c <> lineFeed.
Proof.
  unfold scraper.isXbrlFileMatch, MatchString. rewrite search_lang. split.
  - intros (a & p & q & -> & H). apply xbrlPattern_lang in H.
    destruct H as (letters & digits & c & -> & H).
    now exists a, letters, digits, c, q.
  - intros (a & letters & digits & c & q & -> & H).
    exists a, (letters ++ [code "-"] ++ digits ++ c :: utf8.ofAscii "xml"), q.
    split; [reflexivity | ]. apply xbrlPattern_lang.
    now exists letters, digits, c.
Qed.

End Matcher.
(* ===================================================================== *)
(** ** The batch consumer: pages and the loop *)

Section Pages.

Import filings io consumer.

Context {W : Type}.
Context {reportPersister : PersistReportFiles W}.
Context {frp : FilingParser W}.

Lemma persisted_app (a b : list event) :
  persisted (a ++ b) = (persisted a ++ persisted b)%list.
Proof.
  induction a as [ | e a IH]; [reflexivity | ].
  destruct e; simpl; now rewrite IH.
Qed.

Lemma parsedPaths_app (a b : list event) :
  parsedPaths (a ++ b) = (parsedPaths a ++ parsedPaths b)%list.
Proof.
  induction a as [ | e a IH]; [reflexivity | ].
  destruct e; simpl; now rewrite IH.
Qed.

(** One iteration always returns; it persists the file once, marked
    parsed, and calls the parser exactly when the path names a form
    type. *)
Lemma processReportFile_calls (rf : ReportFile) (nv ni : Z) (w : W) :
  exists c w1 tr,
    processReportFile rf nv ni w = Returned c w1 tr /\
    persisted tr = [setParsed rf true] /\
    parsedPaths tr = map ReportFile_Filepath (normalized [rf]) /\
    c = (if notAFinancialForm (ReportFile_Filepath rf) then (nv, ni)
         else match IsValid (fst (ParseFinancialReport
                                    (ReportFile_Filepath rf) (rawStub rf) w))
              with
              | None => (Int64.add nv 1, ni)
              | Some _ => (nv, Int64.add ni 1)
              end).
Proof.
  unfold normalized. cbn [filter].
  destruct (notAFinancialForm (ReportFile_Filepath rf)) eqn:Hform.
  - rewrite (processReportFile_skipped rf nv ni w Hform).
    do 3 eexists. repeat split.
  - rewrite (processReportFile_normalized rf nv ni w Hform).
    do 3 eexists. repeat split.
Qed.

Lemma processBatch_calls (unparsedFiles : list ReportFile) :
  forall (numValid numInvalid : Z) (w : W),
    let o := processBatch unparsedFiles numValid numInvalid w in
    returns o = true /\
    persisted (trace o) = map (fun rf => setParsed rf true) unparsedFiles /\
    parsedPaths (trace o) =
      map ReportFile_Filepath (normalized unparsedFiles).
Proof.
  induction unparsedFiles as [ | rf rest IH]; intros nv ni w.
  - repeat split.
  - cbv zeta. cbn [processBatch]. unfold bind.
    destruct (processReportFile_calls rf nv ni w)
      as (c & w1 & tr & -> & Hp & Hq & _).
    destruct (IH (fst c) (snd c) w1) as (Hret & Hpers & Hparsed).
    destruct (processBatch rest (fst c) (snd c) w1) as [c2 w2 t2 | m w2 t2];
      [ | discriminate Hret].
    cbn [trace returns] in *.
    rewrite persisted_app, parsedPaths_app, Hp, Hq, Hpers, Hparsed.
    unfold normalized. cbn [filter map app].
    repeat split.
    destruct (negb (notAFinancialForm (ReportFile_Filepath rf))); reflexivity.
Qed.

Lemma namesAForm_notAFinancialForm (filePath : string) :
  negb (notAFinancialForm filePath) =
  strings.Contains filePath "10-Q" || strings.Contains filePath "10-K" ||
  strings.Contains filePath "10-K_A" || strings.Contains filePath "10-Q_A".
Proof.
  unfold notAFinancialForm.
  destruct (strings.Contains filePath "10-Q"),
           (strings.Contains filePath "10-K"),
           (strings.Contains filePath "10-K_A"),
           (strings.Contains filePath "10-Q_A"); reflexivity.
Qed.

(** A page is worked off in order: the report files handed to the
    persister are exactly the files of the page, in order, each with
    [Parsed = true] and its other five fields as they were pulled, and
    the filing parser is called exactly for the files whose path
    contains one of the four form types, in order. *)
Theorem page_is_persisted_in_order (unparsedFiles : list ReportFile)
  (numValid numInvalid : Z) (w : W) :
  let o := processBatch unparsedFiles numValid numInvalid w in
  persisted (trace o) =
    map (fun rf =>
           mkReportFile (ReportFile_CIK rf) (ReportFile_Year rf)
             (ReportFile_Quarter rf) (ReportFile_Filepath rf)
             (ReportFile_FormType rf) true) unparsedFiles /\
  parsedPaths (trace o) =
    map ReportFile_Filepath
      (filter (fun rf =>
                 strings.Contains (ReportFile_Filepath rf) "10-Q" ||
                 strings.Contains (ReportFile_Filepath rf) "10-K" ||
                 strings.Contains (ReportFile_Filepath rf) "10-K_A" ||
                 strings.Contains (ReportFile_Filepath rf) "10-Q_A")
         unparsedFiles).
Proof.
  destruct (processBatch_calls unparsedFiles numValid numInvalid w)
    as (_ & Hpers & Hparsed).
  split.
  - exact Hpers.
  - cbv zeta. rewrite Hparsed. unfold normalized. f_equal.
    apply filter_ext. intros rf. apply namesAForm_notAFinancialForm.
Qed.

Lemma add_one_small (a : Z) :
  0 <= a < Int64.max_int -> Int64.add a 1 = a + 1.
Proof.
  unfold Int64.max_int, Int64.add, Int64.wrap. intros H.
  rewrite Z.mod_small; lia.
Qed.

(** Short of an overflow of the counters, every file that goes through
    normalization is counted exactly once, as valid or as invalid, and
    the other files are not counted: neither counter goes down, and
    together they grow by the number of normalized files. *)
Theorem normalized_files_are_counted_once (unparsedFiles : list ReportFile) :
  forall (numValid numInvalid : Z) (w : W),
    0 <= numValid -> 0 <= numInvalid ->
    numValid + numInvalid + Z.of_nat (List.length unparsedFiles)
      <= Int64.max_int ->
    exists valid invalid w1 tr,
      processBatch unparsedFiles numValid numInvalid w =
        Returned (valid, invalid) w1 tr /\
      numValid <= valid /\ numInvalid <= invalid /\
      valid + invalid =
        numValid + numInvalid
        + Z.of_nat (List.length (normalized unparsedFiles)).
Proof.
  induction unparsedFiles as [ | rf rest IH]; intros nv ni w Hv Hi Hmax.
  - exists nv, ni, w, []. cbn. repeat split; lia.
  - cbn [processBatch]. unfold bind.
    destruct (processReportFile_calls rf nv ni w)
      as (c & w1 & tr & -> & _ & _ & Hc).
    cbn [List.length] in Hmax. rewrite Nat2Z.inj_succ in Hmax.
    assert (Hstep : 0 <= fst c /\ 0 <= snd c /\ nv <= fst c /\ ni <= snd c /\
              fst c + snd c =
                nv + ni + Z.of_nat (List.length (normalized [rf]))).
    { subst c. unfold normalized. cbn [filter].
      destruct (notAFinancialForm (ReportFile_Filepath rf)); cbn.
      - lia.
      - destruct (IsValid _); cbn;
          rewrite add_one_small by (unfold Int64.max_int in *; lia); lia. }
    destruct Hstep as (Hv1 & Hi1 & Hle1 & Hle2 & Hsum).
    assert (Hlen : (List.length (normalized [rf]) <= 1)%nat).
    { unfold normalized. cbn [filter].
      destruct (negb _); simpl; lia. }
    destruct (IH (fst c) (snd c) w1 Hv1 Hi1 ltac:(lia))
      as (valid & invalid & w2 & t2 & -> & Hle3 & Hle4 & Hsum2).
    exists valid, invalid, w2, (tr ++ t2)%list.
    split; [reflexivity | ].
    split; [lia | ]. split; [lia | ].
    rewrite Hsum2, Hsum. unfold normalized. cbn [filter].
    destruct (negb (notAFinancialForm (ReportFile_Filepath rf)));
      cbn [List.length]; lia.
Qed.

Lemma callsOf_marked (unparsedFiles : list ReportFile) :
  Forall (fun rf => ReportFile_Parsed rf = true)
    (persisted (flat_map callsOf unparsedFiles)) /\
  Forall (fun e => match e with
                   | CallGetNextUnparsedFiles limit => limit = 20
                   | _ => True
                   end)
    (flat_map callsOf unparsedFiles).
Proof.
  induction unparsedFiles as [ | rf rest [IH1 IH2]].
  - split; constructor.
  - cbn [flat_map]. rewrite persisted_app. split; apply Forall_app; split;
      try assumption;
      unfold callsOf; destruct (negb _ && _ && _ && _); cbn [persisted];
      repeat constructor.
Qed.

(** However many pages there are and whatever the persister and the
    parser answer, every report file that the loop hands to
    [InsertUpdateReportFile] has [Parsed = true], and every page is
    requested with the limit 20. *)
Theorem consumer_only_persists_parsed (fuel : nat) :
  forall (totalNumValid totalNumInvalid : Z) (w : W),
    let o := mainLoop fuel totalNumValid totalNumInvalid w in
    Forall (fun rf => ReportFile_Parsed rf = true) (persisted (trace o)) /\
    Forall (fun e => match e with
                     | CallGetNextUnparsedFiles limit => limit = 20
                     | _ => True
                     end) (trace o).
Proof.
  induction fuel as [ | k IH]; intros tv ti w.
  - split; constructor.
  - cbv zeta. cbn [mainLoop]. unfold bind, call, emit, ret.
    change batchLimit with 20.
    destruct (GetNextUnparsedFiles 20 w) as [[ | rf files] w1].
    + split; repeat constructor.
    + destruct (processBatch_trace (rf :: files) 0 0 w1) as (c & w2 & ->).
      destruct (callsOf_marked (rf :: files)) as [Hp Hl].
      match goal with
      | |- context [mainLoop k ?a ?b w2] =>
          destruct (IH a b w2) as (Hall & Hlim);
          destruct (mainLoop k a b w2) as [r w3 t3 | m w3 t3]
      end; cbn [trace] in *; cbn [app persisted];
        rewrite persisted_app; cbn [app persisted];
        (split;
         [ apply Forall_app; split; assumption
         | constructor; [reflexivity | ];
           apply Forall_app; split; [assumption | ];
           repeat (constructor; [exact I | ]); assumption ]).
Qed.

End Pages.
(* ===================================================================== *)
(** ** Records: identity, order and what reaches the persisters *)

Section Records.

Import filings io scraper.

Context {W : Type}.
Context {persister : PersistCompany W}.
Context {reportPersister : PersistReportFiles W}.
Context {ts : TempStore W}.
Context {outside : Outside W}.

Lemma digit_is_no_sign (c : ascii) :
  regexp.isDigit c = true ->
  Ascii.eqb c "-" = false /\ Ascii.eqb c "+" = false.
Proof.
  intros H. split.
  - destruct (Ascii.eqb_spec c "-") as [-> | _]; [discriminate H | reflexivity].
  - destruct (Ascii.eqb_spec c "+") as [-> | _]; [discriminate H | reflexivity].
Qed.

(** Companies are identified by the number, places in the store by the
    text: a CIK of digits and the same CIK with one more leading zero
    parse alike, and so name the same company, but they get different
    buckets. *)
Theorem padded_cik_same_company_other_bucket (cik : string) :
  cik <> "" ->
  regexp.allBytes regexp.isDigit cik = true ->
  strconv.Atoi (String "0" cik) = strconv.Atoi cik /\
  getBucket (String "0" cik) <> getBucket cik.
Proof.
  intros Hne Hdigits. split.
  - destruct cik as [ | c t]; [contradiction | ].
    cbn [regexp.allBytes] in Hdigits. apply andb_true_iff in Hdigits.
    destruct (digit_is_no_sign c (proj1 Hdigits)) as [Hminus Hplus].
    unfold strconv.Atoi. rewrite Hminus, Hplus. reflexivity.
  - unfold getBucket. intros H. apply (append_cancel_l "CIK_") in H.
    apply (f_equal String.length) in H. simpl in H. lia.
Qed.

(** A row with fewer than five fields ends the list: the rows before it
    have been processed when the goroutine panics, and no row after it is
    looked at. *)
Theorem malformed_row_ends_the_list (efis : EdgarFullIndexScraper)
  (good rest : list string) (bad : string) :
  forall w : W,
    (List.length (strings.Split bad "|") < 5)%nat ->
    returns (parseRecords efis good w) = true ->
    parseRecords efis (good ++ bad :: rest)%list w =
    Panicked "index out of range" (world (parseRecords efis good w))
      (trace (parseRecords efis good w)).
Proof.
  induction good as [ | l good IH]; intros w Hbad Hgood.
  - cbn [app parseRecords]. unfold bind.
    rewrite (short_record_panics efis bad w Hbad). reflexivity.
  - cbn [app parseRecords] in *. unfold bind in *.
    destruct (parseRecord efis l w) as [u w1 t1 | msg w1 t1];
      [ | discriminate Hgood].
    assert (Hrest : returns (parseRecords efis good w1) = true).
    { destruct (parseRecords efis good w1); [reflexivity | discriminate]. }
    rewrite (IH w1 Hbad Hrest).
    destruct (parseRecords efis good w1); [reflexivity | discriminate].
Qed.

Lemma scanZip_report (files : list ZipFile) (bucket fileKey : string)
  (stub rf : ReportFile) (w : W) :
  In (CallInsertUpdateReportFile rf)
     (trace (scanZip files bucket fileKey stub w)) ->
  exists content path,
    rf = withFilepath stub path /\
    In (CallStoreFile bucket fileKey content)
       (trace (scanZip files bucket fileKey stub w)).
Proof.
  induction files as [ | f rest IH]; cbn [scanZip]; [intros [] | ].
  destruct (isXbrlFileMatch (ZipFile_Name f)); [ | exact IH].
  unfold bind, emit, call, ret, panic.
  destruct (ZipFile_Open f) as [content | ].
  - destruct (StoreFile bucket fileKey content w) as [path w1].
    destruct (InsertUpdateReportFile _ w1) as [u w2]. simpl.
    intros [H | [H | [H | [H | []]]]]; try discriminate H.
    injection H as <-. exists content, path. split; [reflexivity | ].
    right. right. now left.
  - simpl. intros [H | [H | []]]; discriminate H.
Qed.

Lemma getXbrlFromZip_report (zipFileName bucket fileKey : string)
  (stub rf : ReportFile) (w : W) :
  In (CallInsertUpdateReportFile rf)
     (trace (getXbrlFromZip zipFileName bucket fileKey stub w)) ->
  exists content path,
    rf = withFilepath stub path /\
    In (CallStoreFile bucket fileKey content)
       (trace (getXbrlFromZip zipFileName bucket fileKey stub w)).
Proof.
  unfold getXbrlFromZip, bind, call, emit, ret.
  destruct (zip_OpenReader zipFileName w) as [[files | ] w1].
  - pose proof (scanZip_report files bucket fileKey stub rf w1) as Hscan.
    destruct (scanZip files bucket fileKey stub w1)
      as [[ | ] w2 tr | msg w2 tr]; simpl in *.
    + intros [H | H]; [discriminate H | ].
      rewrite app_nil_r in *. destruct (Hscan H) as (c & p & -> & Hin).
      exists c, p. auto.
    + intros [H | H]; [discriminate H | ].
      apply in_app_or in H. destruct H as [H | [H | []]];
        [ | discriminate H].
      destruct (Hscan H) as (c & p & -> & Hin).
      exists c, p. split; [reflexivity | ]. right. apply in_or_app. now left.
    + intros [H | H]; [discriminate H | ].
      destruct (Hscan H) as (c & p & -> & Hin).
      exists c, p. auto.
  - simpl. intros [H | [H | []]]; discriminate H.
Qed.

Lemma GetXbrl_report (edgarFilename bucket fileKey : string)
  (stub rf : ReportFile) (w : W) :
  In (CallInsertUpdateReportFile rf)
     (trace (GetXbrl edgarFilename bucket fileKey stub w)) ->
  exists content path,
    rf = withFilepath stub path /\
    In (CallStoreFile bucket fileKey content)
       (trace (GetXbrl edgarFilename bucket fileKey stub w)).
Proof.
  unfold GetXbrl.
  destruct (negb (strings.Contains edgarFilename ".txt")).
  { simpl. intros [H | []]. discriminate H. }
  destruct (packageUrl edgarFilename) as [[baseName fullUrl] | ];
    [ | intros []].
  unfold bind, call, emit, ret.
  destruct (http_Get fullUrl w) as [[resp | ] w1].
  - destruct (time_Now_Unix w1) as [now w2].
    destruct (StoreFile _ _ _ w2) as [zipFilePath w3].
    destruct (negb (zipFilePath =? "")%string).
    + pose proof (getXbrlFromZip_report zipFilePath bucket fileKey stub rf w3)
        as Hzip.
      destruct (getXbrlFromZip zipFilePath bucket fileKey stub w3);
        simpl in *; intros [H | [H | [H | [H | H]]]]; try discriminate H;
        destruct (Hzip H) as (c & p & -> & Hin); exists c, p; auto 10.
    + simpl. intros [H | [H | [H | [H | []]]]]; discriminate H.
  - simpl. intros [H | [H | [H | []]]]; discriminate H.
Qed.

(** A report file reaches the persister only after an instance document
    was written to the store under the very (bucket, key) that the
    duplicate check reads, and it carries the record's data: the CIK as
    [Atoi] gave it, the scraper's year and quarter, the form type as
    written, and [Parsed = false]. *)
Theorem report_is_stored_under_the_checked_key (efis : EdgarFullIndexScraper)
  (lineStr cik companyName formType dateFiled filename : string)
  (more : list string) (rf : ReportFile) (w : W) :
  strings.Split lineStr "|" =
    cik :: companyName :: formType :: dateFiled :: filename :: more ->
  In (CallInsertUpdateReportFile rf) (trace (parseRecord efis lineStr w)) ->
  let bucket := getBucket cik in
  let fileKey := getKey formType (year efis) (quarter efis) in
  In (CallGetFilePath bucket fileKey) (trace (parseRecord efis lineStr w)) /\
  (exists content,
     In (CallStoreFile bucket fileKey content)
        (trace (parseRecord efis lineStr w))) /\
  ReportFile_CIK rf = fst (strconv.Atoi cik) /\
  ReportFile_Year rf = year efis /\
  ReportFile_Quarter rf = quarter efis /\
  ReportFile_FormType rf = formType /\
  ReportFile_Parsed rf = false.
Proof.
  intros Hsplit. cbv zeta.
  rewrite (parseRecord_fields efis lineStr cik companyName formType dateFiled
             filename more w Hsplit).
  set (bucket := getBucket cik).
  set (fileKey := getKey formType (year efis) (quarter efis)).
  set (w2 := snd (GetFilePath bucket fileKey (afterCompany cik companyName w))).
  assert (Hprefix : forall e, In e (companyEvents cik companyName) ->
                              isReportCall e = false).
  { unfold companyEvents. destruct (strconv.Atoi cik) as [n [err | ]];
      intros e [<- | []]; reflexivity. }
  destruct (String.eqb _ "").
  - pose proof (GetXbrl_report filename bucket fileKey
                  (stubFor efis cik formType) rf w2) as Hx.
    destruct (GetXbrl filename bucket fileKey (stubFor efis cik formType) w2)
      as [a w3 tr | msg w3 tr]; cbn [trace] in *; intros Hin;
      (apply in_app_or in Hin; destruct Hin as [Hin | Hin];
       [ apply in_app_or in Hin; destruct Hin as [Hin | Hin];
         [ apply Hprefix in Hin; discriminate Hin
         | destruct Hin as [Hin | [Hin | []]]; discriminate Hin ]
       | destruct (Hx Hin) as (content & path & -> & Hstore);
         split; [ apply in_or_app; left; apply in_or_app; right;
                  right; now left | ];
         split; [ exists content; apply in_or_app; now right | ];
         repeat split ]).
  - cbn [trace]. intros Hin. apply in_app_or in Hin.
    destruct Hin as [Hin | Hin].
    + apply in_app_or in Hin. destruct Hin as [Hin | Hin].
      * apply Hprefix in Hin. discriminate Hin.
      * destruct Hin as [Hin | [Hin | []]]; discriminate Hin.
    + destruct Hin as [Hin | []]. discriminate Hin.
Qed.

End Records.
(* ===================================================================== *)
(** ** The properties above, on the Acme filing *)

Lemma index_is_header_then_records_witness :
  scraper.ParseIndexFile scenario.efis
    (map scraper.fullLine
       (["Full index"; "CIK|Company Name|Form Type|Date Filed|Filename"]
          ++ "-----------" :: [scenario.acmeLine])%list)
    scenario.online =
  scraper.parseRecords scenario.efis [scenario.acmeLine] scenario.online.
Proof.
  apply (index_is_header_then_records (W := mem.World)).
  - intros h [<- | [<- | []]]; reflexivity.
  - reflexivity.
Defined.

Lemma index_without_separator_calls_nothing_witness :
  exists tr,
    scraper.ParseIndexFile scenario.efis
      [io.mkRead (Some "<html>") true false;
       scraper.fullLine "Service unavailable</html>";
       scraper.fullLine scenario.acmeLine]
      scenario.online = io.Returned tt scenario.online tr /\
    Forall (fun e => e = scraper.tooLongLog) tr.
Proof.
  apply (index_without_separator_calls_nothing (W := mem.World)).
  intros r l [<- | [<- | [<- | []]]] Hprefix Hline;
    try discriminate Hprefix; injection Hline as <-; reflexivity.
Defined.

Lemma fields_after_the_fifth_are_ignored_witness :
  scraper.parseRecord scenario.efis
    (scenario.acmeLine ++ "|restated|2020-04-01") scenario.online =
  scraper.parseRecord scenario.efis scenario.acmeLine scenario.online.
Proof.
  apply (fields_after_the_fifth_are_ignored (W := mem.World) scenario.efis
           (scenario.acmeLine ++ "|restated|2020-04-01") scenario.acmeLine
           "0000012345" "Acme Corp" "10-K" "2020-03-01" scenario.acmeFilename
           ["restated"; "2020-04-01"] []);
    reflexivity.
Defined.

Lemma company_is_upserted_first_witness :
  exists tr,
    io.trace (scraper.parseRecord scenario.efis scenario.acmeLine
                scenario.online) =
    io.CallInsertUpdateCompany (filings.mkCompany 12345 "Acme Corp")
    :: scraper.recordLog "0000012345" "Acme Corp" "10-K" "2020-03-01"
         scenario.acmeFilename
    :: io.CallGetFilePath "CIK_0000012345" "Y2020Q1FT10-K"
    :: tr.
Proof.
  apply (company_is_upserted_first (W := mem.World) scenario.efis
           scenario.acmeLine "0000012345" "Acme Corp" "10-K" "2020-03-01"
           scenario.acmeFilename [] 12345);
    reflexivity.
Defined.

Lemma unparsable_cik_no_company_witness :
  scraper.isCompanyCall
    (io.CallGetFilePath "CIK_12345X" "Y2020Q1FT10-K") = false.
Proof.
  apply (unparsable_cik_no_company (W := mem.World) scenario.efis
           ("12345X|Acme Corp|10-K|2020-03-01|" ++ scenario.acmeFilename)
           "12345X" "Acme Corp" "10-K" "2020-03-01" scenario.acmeFilename []
           scenario.online).
  - reflexivity.
  - discriminate.
  - vm_compute. right. right. left. reflexivity.
Defined.

Lemma malformed_row_ends_the_list_witness :
  scraper.parseRecords scenario.efis
    ([scenario.acmeLine] ++ "" :: [scenario.acmeLine])%list scenario.online =
  io.Panicked "index out of range"
    (io.world (scraper.parseRecords scenario.efis [scenario.acmeLine]
                 scenario.online))
    (io.trace (scraper.parseRecords scenario.efis [scenario.acmeLine]
                 scenario.online)).
Proof.
  apply (malformed_row_ends_the_list (W := mem.World)).
  - simpl. lia.
  - reflexivity.
Defined.

Lemma report_is_stored_under_the_checked_key_witness :
  exists content,
    In (io.CallStoreFile "CIK_0000012345" "Y2020Q1FT10-K" content)
       (io.trace (scraper.parseRecord scenario.efis scenario.acmeLine
                    scenario.online)).
Proof.
  assert (Hin :
    In (io.CallInsertUpdateReportFile
          (filings.mkReportFile 12345 2020 1
             "/tmp/CIK_0000012345/Y2020Q1FT10-K" "10-K" false))
       (io.trace (scraper.parseRecord scenario.efis scenario.acmeLine
                    scenario.online))).
  { vm_compute. do 11 right. left. reflexivity. }
  exact (proj1 (proj2
    (report_is_stored_under_the_checked_key (W := mem.World) scenario.efis
       scenario.acmeLine "0000012345" "Acme Corp" "10-K" "2020-03-01"
       scenario.acmeFilename [] _ scenario.online eq_refl Hin))).
Defined.

Lemma padded_cik_same_company_other_bucket_witness :
  strconv.Atoi "012345" = strconv.Atoi "12345" /\
  scraper.getBucket "012345" <> scraper.getBucket "12345".
Proof.
  apply (padded_cik_same_company_other_bucket "12345");
    [discriminate | reflexivity].
Defined.

Lemma index_fetch_decides_the_run_witness :
  scraper.ScrapeEdgarQuarterlyIndex
    (scraper.NewEdgarFullIndexScraper 2020 1) scenario.online =
  io.Returned tt scenario.online
    [scraper.startLog scenario.efis;
     io.CallHttpGet
       "http://www.sec.gov/Archives/edgar/full-index/2020/QTR1/xbrl.idx";
     io.LogError
       ["Failed to retrieve index for url <";
        "http://www.sec.gov/Archives/edgar/full-index/2020/QTR1/xbrl.idx"]].
Proof.
  exact (proj1 (index_fetch_decides_the_run (W := mem.World)
                  (scraper.NewEdgarFullIndexScraper 2020 1) scenario.online)
               eq_refl).
Defined.

Lemma derived_base_name_has_clean_ends_witness :
  "ext-2020-1" = "" \/ spec.cleanEnds "ext-2020-1" = true.
Proof.
  apply (derived_base_name_has_clean_ends "edgar/data/99/text-2020-1.txt"
           "ext-2020-1"
           "http://www.sec.gov/Archives/edgar/data/99/ext20201/ext-2020-1-xbrl.zip").
  reflexivity.
Defined.

Lemma packageUrl_of_clean_name_witness :
  scraper.packageUrl scenario.acmeFilename =
    Some ("0000012345-20-000012", scenario.acmeUrl) /\
  strings.Contains (strings.ReplaceAll "0000012345-20-000012" "-" "") "-"
    = false.
Proof.
  apply (packageUrl_of_clean_name scenario.acmeFilename "edgar" "data" "12345"
           "0000012345-20-000012" []);
    reflexivity.
Defined.

Lemma filename_without_txt_is_refused_witness :
  scraper.GetXbrl "edgar/data/12345/0000012345-20-000012.htm"
    "CIK_0000012345" "Y2020Q1FT10-K" (scenario.stub 12345) scenario.online =
  io.Returned tt scenario.online
    [io.LogError ["Unexpected file type: ";
                  "edgar/data/12345/0000012345-20-000012.htm"]].
Proof.
  apply (filename_without_txt_is_refused (W := mem.World)). reflexivity.
Defined.

Lemma filename_with_few_components_panics_witness :
  scraper.GetXbrl "0000012345-20-000012.txt" "CIK_0000012345" "Y2020Q1FT10-K"
    (scenario.stub 12345) scenario.online =
  io.Panicked "index out of range" scenario.online [].
Proof.
  apply (filename_with_few_components_panics (W := mem.World));
    [reflexivity | simpl; lia].
Defined.

Lemma GetXbrl_get_error_witness :
  scraper.GetXbrl scenario.acmeFilename "CIK_0000012345" "Y2020Q1FT10-K"
    (scenario.stub 12345) mem.empty =
  io.Returned tt mem.empty
    [io.LogPrintln ["Getting xbrl zip from "; scenario.acmeUrl];
     io.CallHttpGet scenario.acmeUrl;
     io.LogError ["Failed get to: "; scenario.acmeUrl]].
Proof.
  exact (GetXbrl_get_error (W := mem.World) scenario.acmeFilename
           "CIK_0000012345" "Y2020Q1FT10-K" "0000012345-20-000012"
           scenario.acmeUrl (scenario.stub 12345) mem.empty
           eq_refl eq_refl eq_refl).
Defined.

Lemma unstored_package_is_not_extracted_witness :
  scraper.GetXbrl (ts := mem.fullStore) scenario.acmeFilename
    "CIK_0000012345" "Y2020Q1FT10-K" (scenario.stub 12345) scenario.online =
  io.Returned tt
    (mem.mkWorld [] (mem.web scenario.online) (mem.archives scenario.online)
       1600000001 [] [] [])
    [io.LogPrintln ["Getting xbrl zip from "; scenario.acmeUrl];
     io.CallHttpGet scenario.acmeUrl;
     io.CallTimeNow;
     io.CallStoreFile "CIK_0000012345"
       "16000000000000012345-20-000012-xbrl.zip" scenario.acmeZip].
Proof.
  exact (unstored_package_is_not_extracted (W := mem.World)
           (ts := mem.fullStore) scenario.acmeFilename "CIK_0000012345"
           "Y2020Q1FT10-K" "0000012345-20-000012" scenario.acmeUrl
           (io.mkResponse "200 OK" 200 scenario.acmeZip) (scenario.stub 12345)
           scenario.online eq_refl eq_refl eq_refl eq_refl).
Defined.

Lemma unreadable_archive_is_logged_witness :
  scraper.getXbrlFromZip scenario.packagePath "CIK_0000012345"
    "Y2020Q1FT10-K" (scenario.stub 12345) mem.empty =
  io.Returned tt mem.empty
    [io.CallZipOpenReader scenario.packagePath;
     io.LogError ["Failed to open zip: "; scenario.packagePath]].
Proof.
  exact (unreadable_archive_is_logged (W := mem.World) scenario.packagePath
           "CIK_0000012345" "Y2020Q1FT10-K" (scenario.stub 12345) mem.empty
           eq_refl).
Defined.

Lemma first_match_is_extracted_witness :
  io.trace
    (scraper.getXbrlFromZip scenario.packagePath "CIK_0000012345"
       "Y2020Q1FT10-K" (scenario.stub 12345)
       (scenario.holding scenario.acmeArchive)) =
  [io.CallZipOpenReader scenario.packagePath;
   io.LogPrintln ["Found zipped file: "; "acme-20191231.xml"];
   io.CallZipFileOpen "acme-20191231.xml";
   io.CallStoreFile "CIK_0000012345" "Y2020Q1FT10-K" "<xbrl/>";
   io.CallInsertUpdateReportFile
     (filings.mkReportFile 12345 2020 1 "/tmp/CIK_0000012345/Y2020Q1FT10-K"
        "10-K" false)].
Proof.
  rewrite (first_match_is_extracted (W := mem.World)
             [io.mkZipFile "acme-20191231_cal.xml" (Some "<linkbase/>")]
             [io.mkZipFile "acme-20191231.xsd" (Some "<schema/>")]
             (io.mkZipFile "acme-20191231.xml" (Some "<xbrl/>")) "<xbrl/>"
             scenario.packagePath "CIK_0000012345" "Y2020Q1FT10-K"
             (scenario.stub 12345) (scenario.holding scenario.acmeArchive)).
  - reflexivity.
  - reflexivity.
  - intros g [<- | []]. reflexivity.
  - reflexivity.
  - reflexivity.
Defined.

Lemma getXbrlFromZip_no_match_witness :
  scraper.getXbrlFromZip scenario.packagePath "CIK_0000012345"
    "Y2020Q1FT10-K" (scenario.stub 12345)
    (scenario.holding scenario.linkbasesOnly) =
  io.Returned tt (scenario.holding scenario.linkbasesOnly)
    [io.CallZipOpenReader scenario.packagePath;
     io.LogError ["Could not find a match for an xbrl in ";
                  scenario.packagePath]].
Proof.
  assert (Hnone : forall f, In f scenario.linkbasesOnly ->
            scraper.isXbrlFileMatch (io.ZipFile_Name f) = false).
  { intros f [<- | [<- | []]]; reflexivity. }
  exact (getXbrlFromZip_no_match (W := mem.World) scenario.linkbasesOnly
           scenario.packagePath "CIK_0000012345" "Y2020Q1FT10-K"
           (scenario.stub 12345) (scenario.holding scenario.linkbasesOnly)
           eq_refl Hnone).
Defined.

Lemma unopenable_match_panics_witness :
  io.returns
    (scraper.getXbrlFromZip scenario.packagePath "CIK_0000012345"
       "Y2020Q1FT10-K" (scenario.stub 12345)
       (scenario.holding scenario.brokenArchive)) = false.
Proof.
  apply (unopenable_match_panics (W := mem.World)
           [io.mkZipFile "acme-20191231_cal.xml" (Some "<linkbase/>")]
           [io.mkZipFile "acme-20200331.xml" (Some "<xbrl/>")]
           (io.mkZipFile "acme-20191231.xml" None)).
  - reflexivity.
  - intros g [<- | []]. reflexivity.
  - reflexivity.
  - reflexivity.
Defined.

Lemma normalized_files_are_counted_once_witness :
  exists valid invalid w1 tr,
    consumer.processBatch scenario.page 0 0 mem.empty =
      io.Returned (valid, invalid) w1 tr /\
    0 <= valid /\ 0 <= invalid /\
    valid + invalid =
      0 + 0 + Z.of_nat (List.length (consumer.normalized scenario.page)).
Proof.
  apply (normalized_files_are_counted_once (W := mem.World) scenario.page
           0 0 mem.empty);
    unfold Int64.max_int; simpl; lia.
Defined.
